(** * Todo-List: a shallow embedding of the Flask application

    The development follows the three source files:
    - [forms.py]: the three WTForms forms and their validator chains;
    - [models.py]: the [User] and [Todo] rows and the password methods;
    - [main.py]: the six request handlers, written in a small state monad
      over the persistent store and the client's session.

    What the application takes from its libraries and cannot be computed
    here (the password hashing of werkzeug, the e-mail syntax check of
    WTForms) is an interface, [External]; every definition and theorem is
    parametric in it. *)

From Stdlib Require Import ZArith List String Ascii Bool Lia DecimalString.
Import ListNotations.

Local Open Scope string_scope.
Local Open Scope Z_scope.

(** ** Library interface *)

(** [generate_password_hash] draws a fresh salt on every call; the salt is
    made an explicit argument.  [validate_email] is the syntax check behind
    the [Email()] validator. *)
Class External : Type := {
  generate_password_hash : string -> string -> string;
  check_password_hash : string -> string -> bool;
  validate_email : string -> bool
}.

(** A test double of the interface, used to run the handlers on concrete
    requests: the "hash" keeps salt and password apart with a [$]. *)
Definition demo_generate (salt password : string) : string :=
  "demo$" ++ salt ++ "$" ++ password.

Fixpoint after_dollar (s : string) : string :=
  match s with
  | EmptyString => EmptyString
  | String c s' => if Ascii.eqb c "$"%char then s' else after_dollar s'
  end.

Definition demo_check (pwhash password : string) : bool :=
  String.eqb (after_dollar (after_dollar pwhash)) password.

Fixpoint has_at (s : string) : bool :=
  match s with
  | EmptyString => false
  | String c s' => Ascii.eqb c "@"%char || has_at s'
  end.

Definition demo_external : External :=
  {| generate_password_hash := demo_generate;
     check_password_hash := demo_check;
     validate_email := has_at |}.

(** ** Requests *)

Inductive Method : Type := GET | POST.

(** [csrf_error] is the verdict of the CSRF token check of Flask-WTF:
    [None] when the token is valid, the error message otherwise. *)
Record Request : Type := {
  method : Method;
  path : string;
  args : list (string * string);
  form : list (string * string);
  csrf_error : option string
}.

Fixpoint multidict_get (key : string) (d : list (string * string)) : option string :=
  match d with
  | [] => None
  | (k, v) :: d' => if String.eqb k key then Some v else multidict_get key d'
  end.

(** ** forms.py *)

(** Characters are the code points below 256; these are the ones
    [str.strip()] removes. *)
Definition is_space (c : ascii) : bool :=
  let n := Z.of_nat (nat_of_ascii c) in
  ((9 <=? n) && (n <=? 13)) || ((28 <=? n) && (n <=? 32)) || (n =? 133) || (n =? 160).

(** Truth value of [s.strip()]. *)
Fixpoint strip_nonempty (s : string) : bool :=
  match s with
  | EmptyString => false
  | String c s' => negb (is_space c) || strip_nonempty s'
  end.

Definition len (s : string) : Z := Z.of_nat (String.length s).

Inductive Validator : Type :=
| DataRequired
| Email
| Length (min max : Z) (message : option string)
| EqualTo (fieldname : string) (message : string).

Inductive FieldKind : Type := StringField | PasswordField | BooleanField | SubmitField.

Record Field : Type := {
  field_name : string;
  field_kind : FieldKind;
  field_label : string;
  validators : list Validator
}.

Definition Form : Type := list Field.

Definition RegisterForm : Form :=
  [ {| field_name := "email"; field_kind := StringField; field_label := "Email";
       validators := [DataRequired; Email] |};
    {| field_name := "password"; field_kind := PasswordField; field_label := "Password";
       validators := [DataRequired; Length 6 (-1) None] |};
    {| field_name := "password2"; field_kind := PasswordField;
       field_label := "Confirm Password";
       validators := [DataRequired; EqualTo "password" "Passwords must match"] |};
    {| field_name := "submit"; field_kind := SubmitField; field_label := "Register";
       validators := [] |} ].

Definition LoginForm : Form :=
  [ {| field_name := "email"; field_kind := StringField; field_label := "Email";
       validators := [DataRequired; Email] |};
    {| field_name := "password"; field_kind := PasswordField; field_label := "Password";
       validators := [DataRequired] |};
    {| field_name := "remember"; field_kind := BooleanField; field_label := "Remember Me";
       validators := [] |};
    {| field_name := "submit"; field_kind := SubmitField; field_label := "Login";
       validators := [] |} ].

Definition TodoForm : Form :=
  [ {| field_name := "content"; field_kind := StringField; field_label := "Todo";
       validators :=
         [DataRequired;
          Length (-1) 200 (Some "Todo must be less than 200 characters")] |};
    {| field_name := "submit"; field_kind := SubmitField; field_label := "Add Todo";
       validators := [] |} ].

(** A form bound to the request it was built from. *)
Record BoundForm : Type := {
  fields : Form;
  request_of : Request
}.

(** [form.<name>.data] of a text field; a field the submission does not
    carry has no text, which [DataRequired] rejects like the empty one. *)
Definition data (f : BoundForm) (name : string) : string :=
  match multidict_get name (form (request_of f)) with
  | Some v => v
  | None => EmptyString
  end.

(** [form.<name>.data] of a [BooleanField]. *)
Definition checked (f : BoundForm) (name : string) : bool :=
  match multidict_get name (form (request_of f)) with
  | Some v => negb (String.eqb v "false" || String.eqb v EmptyString)
  | None => false
  end.

Definition decimal (n : Z) : string := NilZero.string_of_int (Z.to_int n).

Definition length_message (min max : Z) (message : option string) : string :=
  match message with
  | Some m => m
  | None =>
      if max =? -1 then "Field must be at least " ++ decimal min ++ " characters long."
      else if min =? -1 then "Field cannot be longer than " ++ decimal max ++ " characters."
      else "Field must be between " ++ decimal min ++ " and " ++ decimal max
           ++ " characters long."
  end.

(** What a validator does on a field: return, raise [ValidationError]
    (the chain goes on) or raise [StopValidation] (the chain ends). *)
Inductive Verdict : Type :=
| Passes
| ValidationError (message : string)
| StopValidation (message : string).

Section Validation.
Context `{External}.

Definition run_validator (f : BoundForm) (name : string) (v : Validator) : Verdict :=
  match v with
  | DataRequired =>
      if strip_nonempty (data f name) then Passes
      else StopValidation "This field is required."
  | Email =>
      if validate_email (data f name) then Passes
      else ValidationError "Invalid email address."
  | Length min max message =>
      let length := len (data f name) in
      if (min <=? length) && ((max =? -1) || (length <=? max)) then Passes
      else ValidationError (length_message min max message)
  | EqualTo other message =>
      if String.eqb (data f name) (data f other) then Passes
      else ValidationError message
  end.

Fixpoint run_validation_chain (f : BoundForm) (name : string) (chain : list Validator)
  : list string :=
  match chain with
  | [] => []
  | v :: chain' =>
      match run_validator f name v with
      | Passes => run_validation_chain f name chain'
      | ValidationError m => m :: run_validation_chain f name chain'
      | StopValidation m => [m]
      end
  end.

Fixpoint field_errors (f : BoundForm) (fs : list Field) : list (string * list string) :=
  match fs with
  | [] => []
  | fd :: fs' =>
      match run_validation_chain f (field_name fd) (validators fd) with
      | [] => field_errors f fs'
      | errs => (field_name fd, errs) :: field_errors f fs'
      end
  end.

Definition csrf_errors (f : BoundForm) : list (string * list string) :=
  match csrf_error (request_of f) with
  | Some m => [("csrf_token", [m])]
  | None => []
  end.

(** [form.validate()]: the errors by field; valid when there are none. *)
Definition validate (f : BoundForm) : list (string * list string) :=
  csrf_errors f ++ field_errors f (fields f).

Definition is_submitted (f : BoundForm) : bool :=
  match method (request_of f) with POST => true | GET => false end.

Definition validate_on_submit (f : BoundForm) : bool :=
  is_submitted f && match validate f with [] => true | _ => false end.

(** [form.errors] as the template sees it: filled by [validate] only. *)
Definition errors (f : BoundForm) : list (string * list string) :=
  if is_submitted f then validate f else [].

End Validation.

(** [RegisterForm()], [LoginForm()], [TodoForm()]: the form filled from the
    current request. *)
Definition register_form (request : Request) : BoundForm :=
  {| fields := RegisterForm; request_of := request |}.

Definition login_form (request : Request) : BoundForm :=
  {| fields := LoginForm; request_of := request |}.

Definition todo_form (request : Request) : BoundForm :=
  {| fields := TodoForm; request_of := request |}.

(** ** models.py *)

Module User.

Record t : Type := {
  id : Z;
  email : string;
  password : string
}.

(** [User(email=...)]: the primary key is given by the store on insert,
    the password by [set_password]. *)
Definition new (email : string) : t :=
  {| id := 0; email := email; password := EmptyString |}.

Section Methods.
Context `{External}.

Definition set_password (salt : string) (self : t) (plaintext : string) : t :=
  {| id := id self;
     email := email self;
     password := generate_password_hash salt plaintext |}.

Definition check_password (self : t) (plaintext : string) : bool :=
  check_password_hash (password self) plaintext.

End Methods.

End User.

Module Todo.

Record t : Type := {
  id : Z;
  content : string;
  completed : bool;
  user_id : Z
}.

(** [Todo(content=..., user_id=...)]; [completed] takes the column
    default, [False]. *)
Definition new (content : string) (user_id : Z) : t :=
  {| id := 0; content := content; completed := false; user_id := user_id |}.

End Todo.

(** ** The store *)

(** The two tables, rows in key order. *)
Record Database : Type := {
  users : list User.t;
  todos : list Todo.t
}.

Inductive Exception : Type := IntegrityError | OverflowError.

Inductive Result (A : Type) : Type :=
| Ok (a : A)
| Raised (e : Exception).
Arguments Ok {A} a.
Arguments Raised {A} e.

(** Key of the next row of a table: one more than the largest key, 1 for
    an empty table. *)
Definition next_id (ids : list Z) : Z := 1 + fold_right Z.max 0 ids.

(** [User.query.filter_by(email=...).first()] *)
Definition user_by_email (d : Database) (e : string) : option User.t :=
  find (fun u => String.eqb (User.email u) e) (users d).

(** [db.session.get(User, id)], as [load_user] calls it with the key the
    session keeps. *)
Definition get_user (d : Database) (i : Z) : option User.t :=
  find (fun u => User.id u =? i) (users d).

(** The row of [todos] with key [i], if the table has one. *)
Definition get_todo (d : Database) (i : Z) : option Todo.t :=
  find (fun t => Todo.id t =? i) (todos d).

(** The keys the store can hold and the driver can bind: the signed 64-bit
    integers of an SQLite INTEGER column. *)
Definition key_in_range (i : Z) : bool :=
  (-9223372036854775808 <=? i) && (i <=? 9223372036854775807).

(** [db.session.get(Todo, id)] as the handlers call it, with the key the
    URL converter [<int:todo_id>] hands over, which has no upper bound: the
    row with that key when the table has one and [None] when it has none,
    except that a key beyond the 64-bit integers cannot be bound to the
    query, and the call raises [OverflowError]. *)
Definition db_session_get_todo (d : Database) (i : Z) : Result (option Todo.t) :=
  match get_todo d i with
  | Some t => Ok (Some t)
  | None => if key_in_range i then Ok None else Raised OverflowError
  end.

(** [Todo.query.filter_by(user_id=...).all()] *)
Definition todos_of (d : Database) (owner : Z) : list Todo.t :=
  filter (fun t => Todo.user_id t =? owner) (todos d).

(** INSERT into [users]; the column is declared [unique=True], so the
    commit raises when the e-mail is already there. *)
Definition insert_user (d : Database) (u : User.t) : Result Database :=
  if existsb (fun u' => String.eqb (User.email u') (User.email u)) (users d)
  then Raised IntegrityError
  else Ok {| users := users d ++
                      [ {| User.id := next_id (map User.id (users d));
                           User.email := User.email u;
                           User.password := User.password u |} ];
             todos := todos d |}.

(** INSERT into [todos]. *)
Definition insert_todo (d : Database) (t : Todo.t) : Database :=
  {| users := users d;
     todos := todos d ++
              [ {| Todo.id := next_id (map Todo.id (todos d));
                   Todo.content := Todo.content t;
                   Todo.completed := Todo.completed t;
                   Todo.user_id := Todo.user_id t |} ] |}.

(** UPDATE of the [completed] column of the row with key [i]. *)
Definition update_completed (d : Database) (i : Z) (b : bool) : Database :=
  {| users := users d;
     todos := map (fun t =>
                     if Todo.id t =? i
                     then {| Todo.id := Todo.id t;
                             Todo.content := Todo.content t;
                             Todo.completed := b;
                             Todo.user_id := Todo.user_id t |}
                     else t) (todos d) |}.

(** DELETE of the row with key [i]. *)
Definition delete_todo (d : Database) (i : Z) : Database :=
  {| users := users d;
     todos := filter (fun t => negb (Todo.id t =? i)) (todos d) |}.

(** Modelled from the spec: the deletion of a [User] row, which no handler
    of [main.py] performs.  The spec (sections 3 and 8) and the declarations
    of [models.py] ([cascade='all, delete-orphan'] on [User.todos],
    [ondelete='CASCADE'] on [Todo.user_id]) say that it takes the user's
    todos with it. *)
Definition delete_user (d : Database) (uid : Z) : Database :=
  {| users := filter (fun u => negb (User.id u =? uid)) (users d);
     todos := filter (fun t => negb (Todo.user_id t =? uid)) (todos d) |}.

(** ** Sessions, responses and the handler monad *)

(** The client's session cookie: the logged-in key Flask-Login keeps, its
    remember flag, and the messages flashed and not yet shown, as
    [(category, message)]. *)
Record Session : Type := {
  session_user_id : option Z;
  session_remember : bool;
  flashes : list (string * string)
}.

Record World : Type := {
  db : Database;
  session : Session
}.

Inductive Response : Type :=
| Redirect (location : string)
| LoginRedirect (next : string)
| Render (template : string) (form_errors : list (string * list string))
         (context_todos : list Todo.t)
| InternalServerError (e : Exception).

Definition M (A : Type) : Type := World -> A * World.

Definition ret {A : Type} (a : A) : M A := fun w => (a, w).

Definition bind {A B : Type} (m : M A) (k : A -> M B) : M B :=
  fun w => let (a, w') := m w in k a w'.

Notation "x <- m ;; k" := (bind m (fun x => k))
  (at level 61, m at next level, right associativity).
Notation "m ;; k" := (bind m (fun _ => k))
  (at level 61, right associativity).

Definition query {A : Type} (q : Database -> A) : M A := fun w => (q (db w), w).

Definition commit (d' : Database) : M unit :=
  fun w => (tt, {| db := d'; session := session w |}).

(** The world once [message] is appended to the session's flashes. *)
Definition flashed (w : World) (category message : string) : World :=
  {| db := db w;
     session := {| session_user_id := session_user_id (session w);
                   session_remember := session_remember (session w);
                   flashes := flashes (session w) ++ [(category, message)] |} |}.

Definition flash (message category : string) : M unit :=
  fun w => (tt, flashed w category message).

Definition url_for (endpoint : string) : string :=
  if String.eqb endpoint "register" then "/register"
  else if String.eqb endpoint "login" then "/login"
  else if String.eqb endpoint "logout" then "/logout"
  else "/".

Definition redirect (location : string) : M Response := ret (Redirect location).

Definition render_template (template : string) (errs : list (string * list string))
  (ts : list Todo.t) : M Response := ret (Render template errs ts).

(** ** Flask-Login *)

(** The [user_loader] callback. *)
Definition load_user (d : Database) (user_id : Z) : option User.t := get_user d user_id.

(** [current_user]: the user the session names, if the store still has
    it; [None] is the anonymous user. *)
Definition current_user : M (option User.t) :=
  fun w => (match session_user_id (session w) with
            | Some i => load_user (db w) i
            | None => None
            end, w).

Definition login_user (u : User.t) (remember : bool) : M unit :=
  fun w => (tt, {| db := db w;
                   session := {| session_user_id := Some (User.id u);
                                 session_remember := remember;
                                 flashes := flashes (session w) |} |}).

Definition logout_user : M unit :=
  fun w => (tt, {| db := db w;
                   session := {| session_user_id := None;
                                 session_remember := false;
                                 flashes := flashes (session w) |} |}).

Definition login_message : string := "Please log in to access this page.".

(** [login_manager.unauthorized()] *)
Definition unauthorized (request : Request) : M Response :=
  flash login_message "message" ;;
  ret (LoginRedirect (path request)).

(** The [@login_required] decorator; the view gets the resolved user. *)
Definition login_required (request : Request) (view : User.t -> M Response) : M Response :=
  cu <- current_user ;;
  match cu with
  | None => unauthorized request
  | Some u => view u
  end.

(** ** main.py *)

Section Handlers.
Context `{External}.

(** The two halves of a successful pre-check in [register]: building the
    row, and adding and committing it.  The commit is where the
    uniqueness constraint of the store speaks. *)
Definition register_commit (user : User.t) : M Response :=
  r <- query (fun d => insert_user d user) ;;
  match r with
  | Raised e => ret (InternalServerError e)
  | Ok d' =>
      commit d' ;;
      flash "Registration successful! Please log in." "success" ;;
      redirect (url_for "login")
  end.

Definition register (salt : string) (request : Request) : M Response :=
  let form := register_form request in
  if validate_on_submit form then
    existing_user <- query (fun d => user_by_email d (data form "email")) ;;
    match existing_user with
    | Some _ =>
        flash "Email already registered" "danger" ;;
        redirect (url_for "register")
    | None =>
        let user := User.new (data form "email") in
        let user := User.set_password salt user (data form "password") in
        register_commit user
    end
  else render_template "register.html" (errors form) [].

Definition login (request : Request) : M Response :=
  let form := login_form request in
  if validate_on_submit form then
    user <- query (fun d => user_by_email d (data form "email")) ;;
    if match user with
       | Some u => User.check_password u (data form "password")
       | None => false
       end
    then
      match user with
      | Some u =>
          login_user u (checked form "remember") ;;
          match multidict_get "next" (args request) with
          | Some next_page =>
              if String.eqb next_page EmptyString then redirect (url_for "index")
              else redirect next_page
          | None => redirect (url_for "index")
          end
      | None => render_template "login.html" (errors form) []
      end
    else
      flash "Invalid email or password" "danger" ;;
      render_template "login.html" (errors form) []
  else render_template "login.html" (errors form) [].

Definition logout (request : Request) : M Response :=
  login_required request (fun _ =>
    logout_user ;;
    flash "You have been logged out" "info" ;;
    redirect (url_for "login")).

Definition index (request : Request) : M Response :=
  login_required request (fun cu =>
    let form := todo_form request in
    if validate_on_submit form then
      let todo := Todo.new (data form "content") (User.id cu) in
      d' <- query (fun d => insert_todo d todo) ;;
      commit d' ;;
      redirect (url_for "index")
    else
      ts <- query (fun d => todos_of d (User.id cu)) ;;
      render_template "index.html" (errors form) ts).

Definition toggle (todo_id : Z) (request : Request) : M Response :=
  login_required request (fun cu =>
    todo <- query (fun d => db_session_get_todo d todo_id) ;;
    match todo with
    | Raised e => ret (InternalServerError e)
    | Ok None =>
        flash "Todo not found" "danger" ;;
        redirect (url_for "index")
    | Ok (Some t) =>
        if negb (Todo.user_id t =? User.id cu) then
          flash "Unauthorized" "danger" ;;
          redirect (url_for "index")
        else
          d' <- query (fun d => update_completed d (Todo.id t) (negb (Todo.completed t))) ;;
          commit d' ;;
          redirect (url_for "index")
    end).

Definition delete (todo_id : Z) (request : Request) : M Response :=
  login_required request (fun cu =>
    todo <- query (fun d => db_session_get_todo d todo_id) ;;
    match todo with
    | Raised e => ret (InternalServerError e)
    | Ok None =>
        flash "Todo not found" "danger" ;;
        redirect (url_for "index")
    | Ok (Some t) =>
        if negb (Todo.user_id t =? User.id cu) then
          flash "Unauthorized" "danger" ;;
          redirect (url_for "index")
        else
          d' <- query (fun d => delete_todo d (Todo.id t)) ;;
          commit d' ;;
          flash "Todo deleted" "success" ;;
          redirect (url_for "index")
    end).

(** The route table of the application. *)
Inductive Route : Type :=
| route_register (salt : string)
| route_login
| route_logout
| route_index
| route_toggle (todo_id : Z)
| route_delete (todo_id : Z).

Definition dispatch (r : Route) : Request -> M Response :=
  match r with
  | route_register salt => register salt
  | route_login => login
  | route_logout => logout
  | route_index => index
  | route_toggle i => toggle i
  | route_delete i => delete i
  end.

(** ** Reachable stores

    A store is changed by a request handled to completion, whatever the
    session and the request; by the commit of a registration whose
    pre-check was made on an earlier store (two registrations racing);
    and by the deletion of a user. *)
Inductive step : Database -> Database -> Prop :=
| step_request (r : Route) (request : Request) (s : Session) (d : Database) :
    step d (db (snd (dispatch r request {| db := d; session := s |})))
| step_late_commit (user : User.t) (s : Session) (d : Database) :
    step d (db (snd (register_commit user {| db := d; session := s |})))
| step_delete_user (uid : Z) (d : Database) :
    step d (delete_user d uid).

Definition empty_db : Database := {| users := []; todos := [] |}.

Inductive reachable : Database -> Prop :=
| reachable_empty : reachable empty_db
| reachable_step (d d' : Database) : reachable d -> step d d' -> reachable d'.

(** What the schema promises of a store: primary keys and e-mails are
    unique, and every todo has its owner. *)
Record consistent (d : Database) : Prop := {
  user_ids_unique : NoDup (map User.id (users d));
  emails_unique : NoDup (map User.email (users d));
  todo_ids_unique : NoDup (map Todo.id (todos d));
  no_orphans : forall t, In t (todos d) ->
               exists u, In u (users d) /\ User.id u = Todo.user_id t
}.

End Handlers.

Definition anonymous : Session :=
  {| session_user_id := None; session_remember := false; flashes := [] |}.

(** ** Sample requests and stores

    The values the examples below are run on: the scenario of section 8 of
    the specification (user [a@x.com], todo "buy milk"), and a second
    user. *)

Definition post (p : string) (f : list (string * string)) : Request :=
  {| method := POST; path := p; args := []; form := f; csrf_error := None |}.

Definition get (p : string) : Request :=
  {| method := GET; path := p; args := []; form := []; csrf_error := None |}.

Definition fresh_world : World := {| db := empty_db; session := anonymous |}.

Definition register_a : Request :=
  post "/register"
    [("email", "a@x.com"); ("password", "secret1"); ("password2", "secret1")].

Definition register_b : Request :=
  post "/register"
    [("email", "b@x.com"); ("password", "hunter22"); ("password2", "hunter22")].

Definition login_a : Request :=
  post "/login" [("email", "a@x.com"); ("password", "secret1")].

Definition add_milk : Request := post "/" [("content", "buy milk")].

Definition user_a : User.t :=
  {| User.id := 1; User.email := "a@x.com"; User.password := "demo$s1$secret1" |}.

Definition user_b : User.t :=
  {| User.id := 2; User.email := "b@x.com"; User.password := "demo$s2$hunter22" |}.

Definition milk : Todo.t :=
  {| Todo.id := 1; Todo.content := "buy milk"; Todo.completed := false;
     Todo.user_id := 1 |}.

Definition logged_in (u : User.t) : Session :=
  {| session_user_id := Some (User.id u); session_remember := false; flashes := [] |}.

(** Both users registered, [a@x.com] owning the one todo. *)
Definition sample_db : Database := {| users := [user_a; user_b]; todos := [milk] |}.

(** A content of [n] copies of one character. *)
Fixpoint replicate (n : nat) (c : ascii) : string :=
  match n with
  | O => EmptyString
  | S n' => String c (replicate n' c)
  end.

(** The sample store with [u] logged in. *)
Definition sample_world (u : User.t) : World :=
  {| db := sample_db; session := logged_in u |}.

(** * Properties *)

(** ** Lists and keys *)

Lemma next_id_above (ids : list Z) (i : Z) : In i ids -> i < next_id ids.
Proof.
  unfold next_id. induction ids as [|j ids IH]; cbn [fold_right In]; [tauto|].
  intros [->|Hin]; [lia|]. specialize (IH Hin). lia.
Qed.

Lemma next_id_fresh (ids : list Z) : ~ In (next_id ids) ids.
Proof. intros Hin. apply next_id_above in Hin. lia. Qed.

Lemma NoDup_snoc {A : Type} (l : list A) (x : A) :
  NoDup l -> ~ In x l -> NoDup (l ++ [x]).
Proof.
  induction l as [|a l IH]; simpl; intros Hnd Hx.
  - constructor; [tauto | constructor].
  - inversion Hnd as [|? ? Ha Hl]; subst. constructor.
    + rewrite in_app_iff. simpl. intros [Hin|[->|[]]]; tauto.
    + apply IH; tauto.
Qed.

(** Deleting rows keeps the keys of a table unique. *)
Lemma keys_unique_after_filter {Row Key : Type} (key : Row -> Key)
  (keep : Row -> bool) (rows : list Row) (Hnd : NoDup (map key rows)) :
  NoDup (map key (filter keep rows)).
Proof.
  induction rows as [|r rows IH]; simpl; [constructor|].
  simpl in Hnd. inversion Hnd as [|? ? Hr Hrows]; subst.
  destruct (keep r); simpl; [constructor|]; auto.
  intros Hin. apply Hr. apply in_map_iff in Hin as (x & Hx & Hxin).
  apply filter_In in Hxin as [Hxin _]. apply in_map_iff. eauto.
Qed.

Lemma existsb_email_false (l : list User.t) (e : string) :
  existsb (fun u' => String.eqb (User.email u') e) l = false ->
  ~ In e (map User.email l).
Proof.
  intros Hex Hin. apply in_map_iff in Hin as (u & Hu & Huin).
  assert (Ht : existsb (fun u' => String.eqb (User.email u') e) l = true).
  { apply existsb_exists. exists u. split; [assumption|]. now apply String.eqb_eq. }
  congruence.
Qed.

Lemma find_some_id_todo (l : list Todo.t) (i : Z) (t : Todo.t) :
  find (fun t' => Todo.id t' =? i) l = Some t -> In t l /\ Todo.id t = i.
Proof. intros Hf. apply find_some in Hf as [Hin Heq]. split; [assumption | now apply Z.eqb_eq]. Qed.

Lemma find_some_id_user (l : list User.t) (i : Z) (u : User.t) :
  find (fun u' => User.id u' =? i) l = Some u -> In u l /\ User.id u = i.
Proof. intros Hf. apply find_some in Hf as [Hin Heq]. split; [assumption | now apply Z.eqb_eq]. Qed.

(** With unique keys, a row of the table is the one [find] returns. *)
Lemma find_unique_todo (l : list Todo.t) (t : Todo.t) :
  NoDup (map Todo.id l) -> In t l ->
  find (fun t' => Todo.id t' =? Todo.id t) l = Some t.
Proof.
  induction l as [|a l IH]; simpl; intros Hnd Hin; [tauto|].
  inversion Hnd as [|? ? Ha Hl]; subst.
  destruct Hin as [->|Hin].
  - now rewrite Z.eqb_refl.
  - destruct (Todo.id a =? Todo.id t) eqn:E; [|auto].
    exfalso. apply Ha. apply Z.eqb_eq in E. rewrite E. now apply in_map.
Qed.

Lemma find_none_filtered_todo (l : list Todo.t) (p : Todo.t -> bool) (i : Z) :
  (forall t, In t l -> Todo.id t = i -> p t = false) ->
  find (fun t' => Todo.id t' =? i) (filter p l) = None.
Proof.
  intros Hp. destruct (find _ (filter p l)) as [t|] eqn:E; [|reflexivity].
  apply find_some_id_todo in E as [Hin Hid].
  apply filter_In in Hin as [Hin Hpt]. rewrite (Hp t Hin Hid) in Hpt. discriminate.
Qed.

(** ** The store keeps the schema's promises *)

Lemma consistent_empty : consistent empty_db.
Proof. split; simpl; try constructor. intros t []. Qed.

Lemma insert_user_consistent (d d' : Database) (u : User.t) :
  consistent d -> insert_user d u = Ok d' -> consistent d'.
Proof.
  intros [Hu He Ht Ho]. unfold insert_user.
  destruct (existsb _ (users d)) eqn:Hex; [discriminate|].
  intros [= <-]. split; simpl.
  - rewrite map_app. simpl. apply NoDup_snoc; [assumption | apply next_id_fresh].
  - rewrite map_app. simpl. apply NoDup_snoc; [assumption|].
    now apply existsb_email_false.
  - assumption.
  - intros t Hin. destruct (Ho t Hin) as (u' & Hu' & Hid).
    exists u'. split; [|assumption]. apply in_app_iff. now left.
Qed.

Lemma insert_todo_consistent (d : Database) (t : Todo.t) :
  consistent d ->
  (exists u, In u (users d) /\ User.id u = Todo.user_id t) ->
  consistent (insert_todo d t).
Proof.
  intros [Hu He Ht Ho] Howner. split; simpl; try assumption.
  - rewrite map_app. simpl. apply NoDup_snoc; [assumption | apply next_id_fresh].
  - intros t' Hin. apply in_app_iff in Hin as [Hin|[<-|[]]]; simpl; auto.
Qed.

Lemma update_completed_ids (d : Database) (i : Z) (b : bool) :
  map Todo.id (todos (update_completed d i b)) = map Todo.id (todos d).
Proof.
  simpl. rewrite map_map. apply map_ext. intros t. now destruct (Todo.id t =? i).
Qed.

Lemma update_completed_consistent (d : Database) (i : Z) (b : bool) :
  consistent d -> consistent (update_completed d i b).
Proof.
  intros [Hu He Ht Ho]. split; try assumption.
  - now rewrite update_completed_ids.
  - simpl. intros t Hin. apply in_map_iff in Hin as (t0 & Ht0 & Hin).
    destruct (Ho t0 Hin) as (u & Huin & Hid). exists u. split; [assumption|].
    destruct (Todo.id t0 =? i); subst t; simpl; assumption.
Qed.

Lemma delete_todo_consistent (d : Database) (i : Z) :
  consistent d -> consistent (delete_todo d i).
Proof.
  intros [Hu He Ht Ho]. split; simpl; try assumption.
  - now apply keys_unique_after_filter.
  - intros t Hin. apply filter_In in Hin as [Hin _]. auto.
Qed.

Lemma delete_user_consistent (d : Database) (uid : Z) :
  consistent d -> consistent (delete_user d uid).
Proof.
  intros [Hu He Ht Ho]. split; simpl; try (now apply keys_unique_after_filter).
  intros t Hin. apply filter_In in Hin as [Hin Hneq].
  destruct (Ho t Hin) as (u & Huin & Hid). exists u. split; [|assumption].
  apply filter_In. split; [assumption|]. now rewrite Hid.
Qed.

(** ** Fetching a todo *)

Lemma db_session_get_todo_found (d : Database) (i : Z) (t : Todo.t) :
  get_todo d i = Some t -> db_session_get_todo d i = Ok (Some t).
Proof. intros Ht. unfold db_session_get_todo. now rewrite Ht. Qed.

Lemma db_session_get_todo_absent (d : Database) (i : Z) :
  get_todo d i = None -> key_in_range i = true -> db_session_get_todo d i = Ok None.
Proof. intros Ht Hr. unfold db_session_get_todo. now rewrite Ht, Hr. Qed.

Lemma db_session_get_todo_beyond (d : Database) (i : Z) :
  get_todo d i = None -> key_in_range i = false ->
  db_session_get_todo d i = Raised OverflowError.
Proof. intros Ht Hr. unfold db_session_get_todo. now rewrite Ht, Hr. Qed.

Lemma db_session_get_todo_some (d : Database) (i : Z) (t : Todo.t) :
  db_session_get_todo d i = Ok (Some t) -> get_todo d i = Some t.
Proof.
  unfold db_session_get_todo. destruct (get_todo d i) as [t'|]; [congruence|].
  destruct (key_in_range i); discriminate.
Qed.

(** ** Running the handlers *)

Ltac run :=
  unfold login_required, unauthorized, current_user, load_user, login_user,
    logout_user, redirect, render_template, flash, flashed, commit, query, bind, ret;
  cbn [fst snd db session session_user_id session_remember flashes].

Lemma current_user_known (w : World) (u : User.t) :
  fst (current_user w) = Some u ->
  In u (users (db w)) /\ session_user_id (session w) = Some (User.id u).
Proof.
  unfold current_user, load_user, get_user. cbn [fst].
  destruct (session_user_id (session w)) as [i|]; [|discriminate].
  intros Hf. apply find_some_id_user in Hf as [Hin Hid]. now subst i.
Qed.

Section HandlerEffects.
Context `{External}.

Lemma register_commit_consistent (user : User.t) (w : World) :
  consistent (db w) -> consistent (db (snd (register_commit user w))).
Proof.
  intros Hc. unfold register_commit. run.
  destruct (insert_user (db w) user) as [d'|e] eqn:E; cbn; [|assumption].
  eapply insert_user_consistent; eassumption.
Qed.

Lemma register_consistent (salt : string) (request : Request) (w : World) :
  consistent (db w) -> consistent (db (snd (register salt request w))).
Proof.
  intros Hc. unfold register.
  destruct (validate_on_submit _); [|exact Hc].
  unfold bind at 1, query at 1.
  destruct (user_by_email (db w) _); [exact Hc|].
  now apply register_commit_consistent.
Qed.

Lemma login_db (request : Request) (w : World) :
  db (snd (login request w)) = db w.
Proof.
  unfold login. destruct (validate_on_submit _); [|reflexivity].
  unfold bind at 1, query at 1.
  destruct (user_by_email (db w) _) as [u|]; [|reflexivity].
  destruct (User.check_password u _); [|reflexivity].
  run. destruct (multidict_get "next" (args request)) as [n|]; [|reflexivity].
  now destruct (String.eqb n EmptyString).
Qed.

Lemma logout_db (request : Request) (w : World) :
  db (snd (logout request w)) = db w.
Proof.
  unfold logout. run.
  destruct (session_user_id (session w)) as [i|]; [|reflexivity].
  now destruct (get_user (db w) i).
Qed.

Lemma index_consistent (request : Request) (w : World) :
  consistent (db w) -> consistent (db (snd (index request w))).
Proof.
  intros Hc. unfold index, login_required. unfold bind at 1.
  destruct (current_user w) as [cu w'] eqn:Ecu.
  assert (w' = w) by (unfold current_user in Ecu; congruence). subst w'.
  destruct cu as [u|]; [|exact Hc].
  destruct (validate_on_submit _); [|exact Hc].
  run. apply insert_todo_consistent; [assumption|].
  exists u. split; [|reflexivity].
  apply (current_user_known w u). now rewrite Ecu.
Qed.

Lemma toggle_consistent (todo_id : Z) (request : Request) (w : World) :
  consistent (db w) -> consistent (db (snd (toggle todo_id request w))).
Proof.
  intros Hc. unfold toggle. run.
  destruct (match session_user_id (session w) with
            | Some i => get_user (db w) i | None => None end) as [u|]; [|exact Hc].
  destruct (db_session_get_todo (db w) todo_id) as [[t|]|e]; [|exact Hc|exact Hc].
  destruct (negb _); [exact Hc|]. cbn. now apply update_completed_consistent.
Qed.

Lemma delete_consistent (todo_id : Z) (request : Request) (w : World) :
  consistent (db w) -> consistent (db (snd (delete todo_id request w))).
Proof.
  intros Hc. unfold delete. run.
  destruct (match session_user_id (session w) with
            | Some i => get_user (db w) i | None => None end) as [u|]; [|exact Hc].
  destruct (db_session_get_todo (db w) todo_id) as [[t|]|e]; [|exact Hc|exact Hc].
  destruct (negb _); [exact Hc|]. cbn. now apply delete_todo_consistent.
Qed.

Lemma step_consistent (d d' : Database) :
  step d d' -> consistent d -> consistent d'.
Proof.
  intros Hs Hc. destruct Hs as [r request s d|user s d|uid d].
  - destruct r; cbn [dispatch].
    + now apply register_consistent.
    + now rewrite login_db.
    + now rewrite logout_db.
    + now apply index_consistent.
    + now apply toggle_consistent.
    + now apply delete_consistent.
  - now apply register_commit_consistent.
  - now apply delete_user_consistent.
Qed.

Lemma reachable_consistent (d : Database) : reachable d -> consistent d.
Proof.
  induction 1 as [|d d' _ IH Hs]; [apply consistent_empty|].
  eapply step_consistent; eassumption.
Qed.

End HandlerEffects.

(** ** The forms *)

Lemma len_nonneg (s : string) : 0 <= len s.
Proof. unfold len. lia. Qed.

Lemma strip_nonempty_empty : strip_nonempty EmptyString = false.
Proof. reflexivity. Qed.

Section FormFacts.
Context `{External}.

Lemma validate_on_submit_true (f : BoundForm) :
  validate_on_submit f = true ->
  method (request_of f) = POST /\ validate f = [] /\ errors f = [].
Proof.
  unfold validate_on_submit, errors, is_submitted.
  destruct (method (request_of f)); [discriminate|].
  destruct (validate f); [auto | discriminate].
Qed.

Lemma validate_on_submit_false (f : BoundForm) :
  validate f <> [] -> validate_on_submit f = false.
Proof.
  unfold validate_on_submit. destruct (validate f); [tauto|].
  intros _. apply andb_false_r.
Qed.

(** The errors of the one validated field of [TodoForm]. *)
Lemma TodoForm_field_errors (request : Request) :
  field_errors (todo_form request) TodoForm =
  let content := data (todo_form request) "content" in
  if strip_nonempty content then
    if len content <=? 200 then []
    else [("content", ["Todo must be less than 200 characters"])]
  else [("content", ["This field is required."])].
Proof.
  cbn [TodoForm field_errors field_name validators run_validation_chain run_validator].
  destruct (strip_nonempty _); [|reflexivity].
  pose proof (len_nonneg (data (todo_form request) "content")) as Hl.
  replace (-1 <=? len _) with true by (symmetry; apply Z.leb_le; lia).
  cbn [andb orb Z.eqb length_message].
  change (200 =? -1) with false. cbn [orb].
  now destruct (len _ <=? 200).
Qed.

Lemma field_errors_in_validate (f : BoundForm) (e : string * list string) :
  In e (field_errors f (fields f)) -> In e (validate f).
Proof. intros Hin. unfold validate. apply in_app_iff. now right. Qed.

End FormFacts.

(** ** Toggle and delete *)

Lemma find_unique_user (l : list User.t) (u : User.t) :
  NoDup (map User.id l) -> In u l ->
  find (fun u' => User.id u' =? User.id u) l = Some u.
Proof.
  induction l as [|a l IH]; simpl; intros Hnd Hin; [tauto|].
  inversion Hnd as [|? ? Ha Hl]; subst.
  destruct Hin as [->|Hin].
  - now rewrite Z.eqb_refl.
  - destruct (User.id a =? User.id u) eqn:E; [|auto].
    exfalso. apply Ha. apply Z.eqb_eq in E. rewrite E. now apply in_map.
Qed.

Lemma NoDup_map_distinct {A B : Type} (f : A -> B) (l : list A) (a b : A) :
  NoDup (map f l) -> In a l -> In b l -> a <> b -> f a <> f b.
Proof.
  induction l as [|x l IH]; simpl; intros Hnd Ha Hb Hab; [tauto|].
  inversion Hnd as [|? ? Hx Hl]; subst.
  destruct Ha as [->|Ha], Hb as [->|Hb]; try tauto.
  - intros E. apply Hx. rewrite E. now apply in_map.
  - intros E. apply Hx. rewrite <- E. now apply in_map.
Qed.

(** In a consistent store, the session of a stored user resolves to it. *)
Lemma current_user_of_session (w : World) (u : User.t) :
  consistent (db w) -> In u (users (db w)) ->
  session_user_id (session w) = Some (User.id u) ->
  fst (current_user w) = Some u.
Proof.
  intros Hc Hin Hs. unfold current_user, load_user, get_user. cbn [fst].
  rewrite Hs. apply find_unique_user; [apply Hc | assumption].
Qed.

Lemma toggle_foreign (w : World) (request : Request) (t : Todo.t) (cu : User.t) (i : Z) :
  fst (current_user w) = Some cu ->
  get_todo (db w) i = Some t ->
  Todo.user_id t <> User.id cu ->
  toggle i request w = (Redirect "/", flashed w "danger" "Unauthorized").
Proof.
  intros Hcu Ht Hne. unfold toggle, login_required. unfold bind at 1.
  destruct (current_user w) as [cu' w'] eqn:E.
  assert (w' = w) by (unfold current_user in E; congruence). subst w'.
  cbn [fst] in Hcu. subst cu'. run. rewrite (db_session_get_todo_found _ _ _ Ht).
  replace (Todo.user_id t =? User.id cu) with false
    by (symmetry; apply Z.eqb_neq; assumption).
  reflexivity.
Qed.

Lemma delete_foreign (w : World) (request : Request) (t : Todo.t) (cu : User.t) (i : Z) :
  fst (current_user w) = Some cu ->
  get_todo (db w) i = Some t ->
  Todo.user_id t <> User.id cu ->
  delete i request w = (Redirect "/", flashed w "danger" "Unauthorized").
Proof.
  intros Hcu Ht Hne. unfold delete, login_required. unfold bind at 1.
  destruct (current_user w) as [cu' w'] eqn:E.
  assert (w' = w) by (unfold current_user in E; congruence). subst w'.
  cbn [fst] in Hcu. subst cu'. run. rewrite (db_session_get_todo_found _ _ _ Ht).
  replace (Todo.user_id t =? User.id cu) with false
    by (symmetry; apply Z.eqb_neq; assumption).
  reflexivity.
Qed.

(** C1.  For every todo [T] of the store owned by user [A] and every other
    stored user [B] whose session is the requester's, both [toggle] and
    [delete] of [T]'s key answer with the "Unauthorized" notice and the
    redirect to the list, and change nothing but the flashed messages:
    the store is the same, and [T] is still in it as it was. *)
Theorem C1_foreign_todo_unauthorized
  (w : World) (request : Request) (T : Todo.t) (A B : User.t) :
  consistent (db w) ->
  In T (todos (db w)) ->
  In A (users (db w)) -> In B (users (db w)) ->
  Todo.user_id T = User.id A ->
  A <> B ->
  session_user_id (session w) = Some (User.id B) ->
  let w' := flashed w "danger" "Unauthorized" in
  toggle (Todo.id T) request w = (Redirect (url_for "index"), w') /\
  delete (Todo.id T) request w = (Redirect (url_for "index"), w') /\
  db w' = db w /\
  get_todo (db w') (Todo.id T) = Some T.
Proof.
  intros Hc HT HA HB Hown Hab Hs w'.
  assert (Hcu : fst (current_user w) = Some B) by now apply current_user_of_session.
  assert (Hget : get_todo (db w) (Todo.id T) = Some T).
  { apply find_unique_todo; [apply Hc | assumption]. }
  assert (Hne : Todo.user_id T <> User.id B).
  { rewrite Hown. eapply NoDup_map_distinct; eauto. apply Hc. }
  split; [|split; [|split]].
  - now apply toggle_foreign with (t := T) (cu := B).
  - now apply delete_foreign with (t := T) (cu := B).
  - reflexivity.
  - exact Hget.
Qed.

Lemma get_todo_update_same (d : Database) (i : Z) (b : bool) (t : Todo.t) :
  get_todo d i = Some t ->
  get_todo (update_completed d i b) i =
  Some {| Todo.id := Todo.id t; Todo.content := Todo.content t;
          Todo.completed := b; Todo.user_id := Todo.user_id t |}.
Proof.
  unfold get_todo, update_completed. cbn [todos].
  induction (todos d) as [|a l IH]; cbn [find map]; [discriminate|].
  destruct (Todo.id a =? i) eqn:E.
  - intros [= ->]. cbn [Todo.id]. now rewrite E.
  - rewrite E. exact IH.
Qed.




(** ** Registration and login *)

Lemma user_by_email_unique (d : Database) (u : User.t) :
  NoDup (map User.email (users d)) -> In u (users d) ->
  user_by_email d (User.email u) = Some u.
Proof.
  unfold user_by_email.
  induction (users d) as [|a l IH]; simpl; intros Hnd Hin; [tauto|].
  inversion Hnd as [|? ? Ha Hl]; subst.
  destruct Hin as [->|Hin].
  - now rewrite String.eqb_refl.
  - destruct (String.eqb (User.email a) (User.email u)) eqn:E; [|auto].
    exfalso. apply Ha. apply String.eqb_eq in E. rewrite E. now apply in_map.
Qed.

Lemma rows_with_email_unique (l : list User.t) (u : User.t) :
  NoDup (map User.email l) -> In u l ->
  filter (fun u' => String.eqb (User.email u') (User.email u)) l = [u].
Proof.
  induction l as [|a l IH]; simpl; intros Hnd Hin; [tauto|].
  inversion Hnd as [|? ? Ha Hl]; subst.
  destruct Hin as [->|Hin].
  - rewrite String.eqb_refl. f_equal.
    destruct (filter _ l) as [|x r] eqn:E; [reflexivity|].
    exfalso. apply Ha. assert (Hx : In x (filter
      (fun u' => String.eqb (User.email u') (User.email u)) l))
      by (rewrite E; now left).
    apply filter_In in Hx as [Hx Heq]. apply String.eqb_eq in Heq.
    rewrite <- Heq. now apply in_map.
  - destruct (String.eqb (User.email a) (User.email u)) eqn:E; [|auto].
    exfalso. apply Ha. apply String.eqb_eq in E. rewrite E. now apply in_map.
Qed.

Lemma insert_user_duplicate (d : Database) (u candidate : User.t) :
  In u (users d) -> User.email candidate = User.email u ->
  insert_user d candidate = Raised IntegrityError.
Proof.
  intros Hin He. unfold insert_user.
  replace (existsb _ (users d)) with true; [reflexivity|].
  symmetry. apply existsb_exists. exists u. split; [assumption|].
  rewrite He. apply String.eqb_refl.
Qed.

Section Accounts.
Context `{External}.

Lemma field_errors_In (f : BoundForm) (fs : list Field) (fd : Field) :
  In fd fs ->
  run_validation_chain f (field_name fd) (validators fd) <> [] ->
  In (field_name fd, run_validation_chain f (field_name fd) (validators fd))
     (field_errors f fs).
Proof.
  induction fs as [|a fs IH]; simpl; intros Hin Hne; [tauto|].
  destruct Hin as [->|Hin].
  - destruct (run_validation_chain f (field_name fd) (validators fd));
      [tauto | now left].
  - destruct (run_validation_chain f (field_name a) (validators a));
      [|right]; now apply IH.
Qed.

(** C3.  In a reachable store that has a user [u], a registration whose
    submission passes the form and carries [u]'s e-mail is turned down
    by the pre-check: "Email already registered" is flashed, the browser
    is sent back to the registration page, and the store is untouched.
    The commit of a row with that e-mail, reached without the pre-check
    (two registrations racing), raises [IntegrityError] from the unique
    column and also leaves the store untouched.  Either way the rows
    with that e-mail are [u] and no other. *)
Theorem C3_duplicate_email_rejected
  (d : Database) (s : Session) (salt : string) (request : Request)
  (u candidate : User.t) :
  reachable d ->
  In u (users d) ->
  validate_on_submit (register_form request) = true ->
  data (register_form request) "email" = User.email u ->
  User.email candidate = User.email u ->
  let w := {| db := d; session := s |} in
  register salt request w =
    (Redirect (url_for "register"), flashed w "danger" "Email already registered") /\
  insert_user d candidate = Raised IntegrityError /\
  register_commit candidate w = (InternalServerError IntegrityError, w) /\
  filter (fun u' => String.eqb (User.email u') (User.email u)) (users d) = [u].
Proof.
  intros Hr Hin Hv He Hc w.
  pose proof (reachable_consistent d Hr) as Hcons.
  assert (Hdup : insert_user d candidate = Raised IntegrityError)
    by now apply insert_user_duplicate with (u := u).
  subst w. split; [|split; [|split]].
  - unfold register. rewrite Hv, He. run.
    now rewrite (user_by_email_unique d u (emails_unique d Hcons) Hin).
  - exact Hdup.
  - unfold register_commit. run. now rewrite Hdup.
  - apply rows_with_email_unique; [apply Hcons | assumption].
Qed.

(** C2.  Two login submissions that pass the form, the first with an
    e-mail no user has, the second with the e-mail of a stored user and
    a password [check_password] refuses, have the same outcome: the
    same response (the login page, no field error), the same flashed
    message "Invalid email or password", the same session apart from
    that message, the same store.  A session that was anonymous still
    is. *)
Theorem C2_login_failures_indistinguishable
  (w : World) (r1 r2 : Request) (u : User.t) :
  validate_on_submit (login_form r1) = true ->
  validate_on_submit (login_form r2) = true ->
  user_by_email (db w) (data (login_form r1) "email") = None ->
  user_by_email (db w) (data (login_form r2) "email") = Some u ->
  User.check_password u (data (login_form r2) "password") = false ->
  let failed := (Render "login.html" [] [],
                 flashed w "danger" "Invalid email or password") in
  login r1 w = failed /\
  login r2 w = failed /\
  (fst (current_user w) = None -> fst (current_user (snd failed)) = None).
Proof.
  intros Hv1 Hv2 Hnone Hsome Hbad failed.
  destruct (validate_on_submit_true _ Hv1) as (_ & _ & He1).
  destruct (validate_on_submit_true _ Hv2) as (_ & _ & He2).
  split; [|split].
  - unfold login. rewrite Hv1, He1. run. now rewrite Hnone.
  - unfold login. rewrite Hv2, He2. run. now rewrite Hsome, Hbad.
  - intros Hanon. exact Hanon.
Qed.

(** C10.  A registration whose password has fewer than 6 characters, or
    whose confirmation differs from the password, gets the registration
    page back and changes nothing: no query runs, no row is created, the
    session is as before.  When it is a POST, the page carries an error
    on the password or on the confirmation field. *)
Theorem C10_register_rejects_short_or_unconfirmed
  (w : World) (salt : string) (request : Request) :
  let form := register_form request in
  len (data form "password") < 6 \/
  data form "password2" <> data form "password" ->
  register salt request w = (Render "register.html" (errors form) [], w) /\
  (method request = POST ->
   exists field msgs,
     (field = "password" \/ field = "password2") /\ msgs <> [] /\
     In (field, msgs) (errors form)).
Proof.
  intros form Hbad.
  assert (Herr : exists field msgs,
             (field = "password" \/ field = "password2") /\ msgs <> [] /\
             In (field, msgs) (validate form)).
  { destruct Hbad as [Hshort|Hdiff].
    - exists "password".
      exists (run_validation_chain form "password" [DataRequired; Length 6 (-1) None]).
      assert (Hne : run_validation_chain form "password"
                      [DataRequired; Length 6 (-1) None] <> []).
      { cbn [run_validation_chain run_validator].
        destruct (strip_nonempty _); [|discriminate].
        replace (6 <=? len (data form "password")) with false
          by (symmetry; apply Z.leb_gt; assumption).
        discriminate. }
      split; [now left | split; [exact Hne|]].
      apply field_errors_in_validate.
      apply (field_errors_In form RegisterForm
               {| field_name := "password"; field_kind := PasswordField;
                  field_label := "Password";
                  validators := [DataRequired; Length 6 (-1) None] |});
        [cbn; tauto | exact Hne].
    - exists "password2".
      exists (run_validation_chain form "password2"
                [DataRequired; EqualTo "password" "Passwords must match"]).
      assert (Hne : run_validation_chain form "password2"
                      [DataRequired; EqualTo "password" "Passwords must match"] <> []).
      { cbn [run_validation_chain run_validator].
        destruct (strip_nonempty _); [|discriminate].
        replace (String.eqb (data form "password2") (data form "password")) with false
          by (symmetry; apply String.eqb_neq; assumption).
        discriminate. }
      split; [now right | split; [exact Hne|]].
      apply field_errors_in_validate.
      apply (field_errors_In form RegisterForm
               {| field_name := "password2"; field_kind := PasswordField;
                  field_label := "Confirm Password";
                  validators := [DataRequired; EqualTo "password" "Passwords must match"] |});
        [cbn; tauto | exact Hne]. }
  split.
  - unfold register. fold form.
    rewrite validate_on_submit_false; [reflexivity|].
    destruct Herr as (field & msgs & _ & _ & Hin).
    intros E. rewrite E in Hin. exact Hin.
  - intros Hpost. unfold errors, is_submitted. cbn [form request_of register_form].
    rewrite Hpost. exact Herr.
Qed.

End Accounts.

(** ** Adding and listing *)

Lemma login_required_as (w : World) (request : Request) (cu : User.t)
  (view : User.t -> M Response) :
  fst (current_user w) = Some cu -> login_required request view w = view cu w.
Proof.
  intros Hcu. unfold login_required, bind.
  destruct (current_user w) as [cu' w'] eqn:E.
  assert (w' = w) by (unfold current_user in E; congruence). subst w'.
  cbn [fst] in Hcu. now subst cu'.
Qed.

Lemma login_required_anonymous (w : World) (request : Request)
  (view : User.t -> M Response) :
  fst (current_user w) = None ->
  login_required request view w =
  (LoginRedirect (path request), flashed w "message" login_message).
Proof.
  intros Hcu. unfold login_required, bind.
  destruct (current_user w) as [cu' w'] eqn:E.
  assert (w' = w) by (unfold current_user in E; congruence). subst w'.
  cbn [fst] in Hcu. now subst cu'.
Qed.

Section Todos.
Context `{External}.

Lemma TodoForm_accepts (request : Request) :
  method request = POST -> csrf_error request = None ->
  strip_nonempty (data (todo_form request) "content") = true ->
  len (data (todo_form request) "content") <= 200 ->
  validate_on_submit (todo_form request) = true.
Proof.
  intros Hm Hc Hs Hl. unfold validate_on_submit, is_submitted, validate, csrf_errors.
  cbn [request_of fields todo_form]. rewrite Hm, Hc. cbn [app andb].
  fold (todo_form request). rewrite TodoForm_field_errors. cbv zeta. rewrite Hs.
  now replace (len _ <=? 200) with true by (symmetry; apply Z.leb_le; assumption).
Qed.

Lemma TodoForm_rejects (request : Request) :
  let content := data (todo_form request) "content" in
  content = EmptyString \/ 200 < len content ->
  In ("content",
      [if strip_nonempty content then "Todo must be less than 200 characters"
       else "This field is required."])
     (validate (todo_form request)).
Proof.
  intros content Hbad. apply field_errors_in_validate.
  cbn [fields todo_form]. fold (todo_form request).
  rewrite TodoForm_field_errors. cbv zeta. fold content.
  destruct (strip_nonempty content) eqn:Es; [|now left].
  destruct Hbad as [He|Hl].
  - rewrite He in Es. discriminate.
  - replace (len content <=? 200) with false by (symmetry; apply Z.leb_gt; assumption).
    now left.
Qed.

(** C5.  With a user logged in, a submission to the list page whose
    content is empty or longer than 200 characters is not added: the
    page is rendered again with the user's todos as they were, and the
    store and the session are unchanged.  When the submission is a POST
    the page carries the error of the [content] field. *)
Theorem C5_add_rejects_empty_or_long
  (w : World) (request : Request) (cu : User.t) :
  fst (current_user w) = Some cu ->
  let form := todo_form request in
  data form "content" = EmptyString \/ 200 < len (data form "content") ->
  index request w =
    (Render "index.html" (errors form) (todos_of (db w) (User.id cu)), w) /\
  todos (db (snd (index request w))) = todos (db w) /\
  (method request = POST ->
   In ("content",
       [if strip_nonempty (data form "content")
        then "Todo must be less than 200 characters"
        else "This field is required."])
      (errors form)).
Proof.
  intros Hcu form Hbad.
  pose proof (TodoForm_rejects request Hbad) as Hin. fold form in Hin.
  assert (Hrun : index request w =
            (Render "index.html" (errors form) (todos_of (db w) (User.id cu)), w)).
  { unfold index. rewrite (login_required_as w request cu _ Hcu). fold form.
    rewrite validate_on_submit_false; [reflexivity|].
    intros E. rewrite E in Hin. exact Hin. }
  split; [exact Hrun | split].
  - now rewrite Hrun.
  - intros Hpost. unfold errors, is_submitted. cbn [form request_of todo_form].
    rewrite Hpost. exact Hin.
Qed.

Lemma todos_of_insert (d : Database) (content : string) (owner : Z) :
  todos_of (insert_todo d (Todo.new content owner)) owner =
  (todos_of d owner ++
   [ {| Todo.id := next_id (map Todo.id (todos d)); Todo.content := content;
        Todo.completed := false; Todo.user_id := owner |} ])%list.
Proof.
  unfold todos_of, insert_todo. cbn [todos Todo.new Todo.content Todo.completed
    Todo.user_id]. rewrite filter_app. cbn [filter Todo.user_id].
  now rewrite Z.eqb_refl.
Qed.

(** The general half of C7: a non-blank content of at most 200
    characters is added with [completed = False], and the owner's list
    is the former one followed by the new row. *)
Lemma add_then_list (w : World) (request : Request) (cu : User.t) :
  fst (current_user w) = Some cu ->
  method request = POST -> csrf_error request = None ->
  let content := data (todo_form request) "content" in
  strip_nonempty content = true -> len content <= 200 ->
  let row := {| Todo.id := next_id (map Todo.id (todos (db w)));
                Todo.content := content; Todo.completed := false;
                Todo.user_id := User.id cu |} in
  let w' := {| db := insert_todo (db w) (Todo.new content (User.id cu));
               session := session w |} in
  index request w = (Redirect (url_for "index"), w') /\
  todos (db w') = (todos (db w) ++ [row])%list /\
  todos_of (db w') (User.id cu) = (todos_of (db w) (User.id cu) ++ [row])%list /\
  (forall listing, method listing = GET ->
   index listing w' =
     (Render "index.html" [] (todos_of (db w) (User.id cu) ++ [row]), w')).
Proof.
  intros Hcu Hm Hc content Hs Hl row w'.
  pose proof (TodoForm_accepts request Hm Hc Hs Hl) as Hv.
  assert (Hlist : todos_of (db w') (User.id cu)
                  = (todos_of (db w) (User.id cu) ++ [row])%list)
    by apply todos_of_insert.
  split; [|split; [|split]].
  - unfold index. rewrite (login_required_as w request cu _ Hcu). now rewrite Hv.
  - reflexivity.
  - exact Hlist.
  - intros listing Hget. unfold index.
    assert (Hcu' : fst (current_user w') = Some cu) by exact Hcu.
    rewrite (login_required_as w' listing cu _ Hcu').
    unfold validate_on_submit, errors, is_submitted.
    cbn [request_of todo_form]. rewrite Hget. cbn [andb]. run. now rewrite <- Hlist.
Qed.

End Todos.

(** ** The scenario of section 8 *)

Section Acceptance.
Context `{External}.

Lemma RegisterForm_accepts (request : Request) :
  let form := register_form request in
  method request = POST -> csrf_error request = None ->
  strip_nonempty (data form "email") = true ->
  validate_email (data form "email") = true ->
  strip_nonempty (data form "password") = true ->
  6 <= len (data form "password") ->
  strip_nonempty (data form "password2") = true ->
  data form "password2" = data form "password" ->
  validate_on_submit form = true.
Proof.
  intros form Hm Hc He1 He2 Hp1 Hp2 Hq1 Hq2.
  unfold validate_on_submit, is_submitted, validate, csrf_errors.
  cbn [form request_of fields register_form]. rewrite Hm, Hc. fold form.
  cbn [RegisterForm field_errors field_name validators run_validation_chain
       run_validator app andb].
  rewrite He1, He2, Hp1, Hq1, Hq2, String.eqb_refl.
  now replace (6 <=? len (data form "password")) with true
    by (symmetry; apply Z.leb_le; assumption).
Qed.

Lemma LoginForm_accepts (request : Request) :
  let form := login_form request in
  method request = POST -> csrf_error request = None ->
  strip_nonempty (data form "email") = true ->
  validate_email (data form "email") = true ->
  strip_nonempty (data form "password") = true ->
  validate_on_submit form = true.
Proof.
  intros form Hm Hc He1 He2 Hp1.
  unfold validate_on_submit, is_submitted, validate, csrf_errors.
  cbn [form request_of fields login_form]. rewrite Hm, Hc. fold form.
  cbn [LoginForm field_errors field_name validators run_validation_chain
       run_validator app andb].
  now rewrite He1, He2, Hp1.
Qed.

End Acceptance.

Section Scenario.
Context `{External}.
Variable salt : string.
Hypothesis hash_round_trip :
  check_password_hash (generate_password_hash salt "secret1") "secret1" = true.
Hypothesis email_accepted : validate_email "a@x.com" = true.

Let hashed : string := generate_password_hash salt "secret1".
Let a : User.t := {| User.id := 1; User.email := "a@x.com"; User.password := hashed |}.
Let registered : list (string * string) :=
  [("success", "Registration successful! Please log in.")].

Lemma scenario_register :
  register salt register_a fresh_world =
  (Redirect "/login",
   {| db := {| users := [a]; todos := [] |};
      session := {| session_user_id := None; session_remember := false;
                    flashes := registered |} |}).
Proof.
  unfold register.
  rewrite (RegisterForm_accepts register_a)
    by first [reflexivity | exact email_accepted | now vm_compute].
  reflexivity.
Qed.

Lemma scenario_login (ts : list Todo.t) (fl : list (string * string)) :
  login login_a
    {| db := {| users := [a]; todos := ts |};
       session := {| session_user_id := None; session_remember := false;
                     flashes := fl |} |} =
  (Redirect "/",
   {| db := {| users := [a]; todos := ts |};
      session := {| session_user_id := Some 1; session_remember := false;
                    flashes := fl |} |}).
Proof.
  unfold login.
  rewrite (LoginForm_accepts login_a)
    by first [reflexivity | exact email_accepted].
  run. change (user_by_email _ _) with (Some a). cbv beta iota.
  change (User.check_password a _)
    with (check_password_hash (generate_password_hash salt "secret1") "secret1").
  rewrite hash_round_trip. reflexivity.
Qed.

(** The run of section 8 from the empty store: register, log in, add
    "buy milk", list, toggle, list, delete, list. *)
Lemma end_to_end :
  let s1 := register salt register_a fresh_world in
  let s2 := login login_a (snd s1) in
  let s3 := index add_milk (snd s2) in
  let s4 := index (get "/") (snd s3) in
  let s5 := toggle 1 (get "/toggle/1") (snd s4) in
  let s6 := index (get "/") (snd s5) in
  let s7 := delete 1 (get "/delete/1") (snd s6) in
  let s8 := index (get "/") (snd s7) in
  fst s1 = Redirect "/login" /\
  fst s2 = Redirect "/" /\
  fst (current_user (snd s2)) = Some a /\
  fst s3 = Redirect "/" /\
  fst s4 = Render "index.html" []
             [ {| Todo.id := 1; Todo.content := "buy milk";
                  Todo.completed := false; Todo.user_id := 1 |} ] /\
  fst s5 = Redirect "/" /\
  fst s6 = Render "index.html" []
             [ {| Todo.id := 1; Todo.content := "buy milk";
                  Todo.completed := true; Todo.user_id := 1 |} ] /\
  fst s7 = Redirect "/" /\
  fst s8 = Render "index.html" [] [] /\
  todos (db (snd s8)) = [].
Proof.
  cbv zeta. rewrite scenario_register. cbn [snd]. rewrite scenario_login.
  cbn [snd fst]. repeat split.
Qed.

End Scenario.

(** C7 (amended).  With a user logged in, a POST to the list page whose
    content has a character that is not white space and is at most 200
    characters long inserts a row with that content, [completed = False]
    and the user as owner; the user's list is then the former one followed
    by the new row, and that is what the next GET of the page shows.  And
    the run of section 8 from the empty store (register [a@x.com] with
    [secret1], log in, add "buy milk", list, toggle, list, delete, list)
    goes as specified and ends with an empty list, given that the hashing
    library accepts the password it hashed and the e-mail check accepts
    the address. *)
Theorem C7_add_then_list_and_scenario `{External} :
  (forall (w : World) (request : Request) (cu : User.t),
     fst (current_user w) = Some cu ->
     method request = POST -> csrf_error request = None ->
     let content := data (todo_form request) "content" in
     strip_nonempty content = true -> len content <= 200 ->
     let row := {| Todo.id := next_id (map Todo.id (todos (db w)));
                   Todo.content := content; Todo.completed := false;
                   Todo.user_id := User.id cu |} in
     let w' := {| db := insert_todo (db w) (Todo.new content (User.id cu));
                  session := session w |} in
     index request w = (Redirect (url_for "index"), w') /\
     todos (db w') = (todos (db w) ++ [row])%list /\
     todos_of (db w') (User.id cu) = (todos_of (db w) (User.id cu) ++ [row])%list /\
     (forall listing, method listing = GET ->
      index listing w' =
        (Render "index.html" [] (todos_of (db w) (User.id cu) ++ [row]), w'))) /\
  (forall salt : string,
     check_password_hash (generate_password_hash salt "secret1") "secret1" = true ->
     validate_email "a@x.com" = true ->
     let s1 := register salt register_a fresh_world in
     let s2 := login login_a (snd s1) in
     let s3 := index add_milk (snd s2) in
     let s4 := index (get "/") (snd s3) in
     let s5 := toggle 1 (get "/toggle/1") (snd s4) in
     let s6 := index (get "/") (snd s5) in
     let s7 := delete 1 (get "/delete/1") (snd s6) in
     let s8 := index (get "/") (snd s7) in
     fst s1 = Redirect "/login" /\
     fst s2 = Redirect "/" /\
     fst (current_user (snd s2)) =
       Some {| User.id := 1; User.email := "a@x.com";
               User.password := generate_password_hash salt "secret1" |} /\
     fst s3 = Redirect "/" /\
     fst s4 = Render "index.html" []
                [ {| Todo.id := 1; Todo.content := "buy milk";
                     Todo.completed := false; Todo.user_id := 1 |} ] /\
     fst s5 = Redirect "/" /\
     fst s6 = Render "index.html" []
                [ {| Todo.id := 1; Todo.content := "buy milk";
                     Todo.completed := true; Todo.user_id := 1 |} ] /\
     fst s7 = Redirect "/" /\
     fst s8 = Render "index.html" [] [] /\
     todos (db (snd s8)) = []).
Proof.
  split.
  - intros w request cu Hcu Hm Hc content Hs Hl. now apply add_then_list.
  - intros salt Hh He. exact (end_to_end salt Hh He).
Qed.

(** ** Logout *)

(** C9 (amended).  [logout] of a logged-in session removes the user from
    the session, flashes "You have been logged out" and redirects to the
    login page.  [logout] of an anonymous session is stopped by
    [@login_required]: the body does not run, the login notice is flashed
    and the browser is sent to the login page with [/logout] as the page
    to come back to.  Either way the session is anonymous afterwards and
    the store is unchanged. *)
Theorem C9_logout_by_state (w : World) (request : Request) :
  logout request w =
    match fst (current_user w) with
    | Some _ =>
        (Redirect (url_for "login"),
         flashed {| db := db w;
                    session := {| session_user_id := None;
                                  session_remember := false;
                                  flashes := flashes (session w) |} |}
                 "info" "You have been logged out")
    | None =>
        (LoginRedirect (path request),
         flashed w "message" "Please log in to access this page.")
    end /\
  fst (current_user (snd (logout request w))) = None /\
  db (snd (logout request w)) = db w.
Proof.
  unfold logout. destruct (fst (current_user w)) as [u|] eqn:E.
  - rewrite (login_required_as w request u _ E). repeat split.
  - rewrite (login_required_anonymous w request _ E). repeat split. exact E.
Qed.

(** ** Deleting a user *)

Lemma NoDup_map_same {A B : Type} (f : A -> B) (l : list A) (a b : A) :
  NoDup (map f l) -> In a l -> In b l -> f a = f b -> a = b.
Proof.
  induction l as [|x l IH]; simpl; intros Hnd Ha Hb Hab; [tauto|].
  inversion Hnd as [|? ? Hx Hl]; subst.
  destruct Ha as [->|Ha], Hb as [->|Hb]; auto.
  - exfalso. apply Hx. rewrite Hab. now apply in_map.
  - exfalso. apply Hx. rewrite <- Hab. now apply in_map.
Qed.

Lemma filter_split_length {A : Type} (p : A -> bool) (l : list A) :
  (List.length (filter (fun x => negb (p x)) l) + List.length (filter p l)
   = List.length l)%nat.
Proof.
  induction l as [|a l IH]; simpl; [reflexivity|].
  destruct (p a); simpl; lia.
Qed.

Section Cascade.
Context `{External}.

(** C8.  In a reachable store, deleting user [uid] takes all of that
    user's todos with it: none of them can be fetched by key any more,
    the user's list is empty, the table is shorter by exactly their
    number, and the todos of the other users are still there, unchanged.
    Before and after, every todo of the store has its owner among the
    users. *)
Theorem C8_delete_user_cascades (d : Database) (uid : Z) :
  reachable d ->
  let d' := delete_user d uid in
  (forall t, In t (todos d) -> Todo.user_id t = uid ->
             get_todo d' (Todo.id t) = None) /\
  todos_of d' uid = [] /\
  (List.length (todos d') + List.length (todos_of d uid)
   = List.length (todos d))%nat /\
  (forall t, In t (todos d) -> Todo.user_id t <> uid ->
             get_todo d' (Todo.id t) = Some t) /\
  get_user d' uid = None /\
  (forall t, In t (todos d) ->
             exists u, In u (users d) /\ User.id u = Todo.user_id t) /\
  (forall t, In t (todos d') ->
             exists u, In u (users d') /\ User.id u = Todo.user_id t).
Proof.
  intros Hr d'.
  pose proof (reachable_consistent d Hr) as Hc.
  pose proof (delete_user_consistent d uid Hc) as Hc'. fold d' in Hc'.
  split; [|split; [|split; [|split; [|split; [|split]]]]].
  - intros t Hin Hown. unfold get_todo, d', delete_user. cbn [todos].
    apply find_none_filtered_todo. intros t' Hin' Hid.
    assert (t' = t) as ->
      by (eapply NoDup_map_same; eauto; apply Hc).
    rewrite Hown. now rewrite Z.eqb_refl.
  - unfold todos_of, d', delete_user. cbn [todos].
    destruct (filter _ (filter _ (todos d))) as [|t l] eqn:E; [reflexivity|].
    assert (Hin : In t (filter (fun t => Todo.user_id t =? uid)
                          (filter (fun t => negb (Todo.user_id t =? uid)) (todos d))))
      by (rewrite E; now left).
    apply filter_In in Hin as [Hin Hyes]. apply filter_In in Hin as [_ Hno].
    rewrite Hyes in Hno. discriminate.
  - unfold todos_of, d', delete_user. cbn [todos].
    apply (filter_split_length (fun t => Todo.user_id t =? uid)).
  - intros t Hin Hown. unfold get_todo.
    apply find_unique_todo; [apply Hc'|].
    unfold d', delete_user. cbn [todos]. apply filter_In. split; [assumption|].
    apply negb_true_iff. now apply Z.eqb_neq.
  - unfold get_user, d', delete_user. cbn [users].
    destruct (find _ (filter _ (users d))) as [u|] eqn:E; [|reflexivity].
    apply find_some_id_user in E as [Hin Hid].
    apply filter_In in Hin as [_ Hno]. rewrite Hid, Z.eqb_refl in Hno. discriminate.
  - apply Hc.
  - apply Hc'.
Qed.

End Cascade.

(** * The theorems on the sample store *)

(** The sample store is reached by two registrations and one addition. *)
Lemma sample_db_reachable : @reachable demo_external sample_db.
Proof.
  eapply reachable_step;
    [eapply reachable_step;
       [eapply reachable_step; [apply reachable_empty|] |] |].
  - exact (step_request (route_register "s1") register_a anonymous empty_db).
  - exact (step_request (route_register "s2") register_b anonymous
             {| users := [user_a]; todos := [] |}).
  - exact (step_request route_index add_milk (logged_in user_a)
             {| users := [user_a; user_b]; todos := [] |}).
Qed.

Lemma sample_db_consistent : consistent sample_db.
Proof. exact (@reachable_consistent demo_external sample_db sample_db_reachable). Qed.

(** [b@x.com] asks to toggle and to delete the todo of [a@x.com]. *)
Lemma C1_witness :
  toggle 1 (get "/toggle/1") (sample_world user_b) =
    (Redirect "/", flashed (sample_world user_b) "danger" "Unauthorized") /\
  delete 1 (get "/delete/1") (sample_world user_b) =
    (Redirect "/", flashed (sample_world user_b) "danger" "Unauthorized") /\
  get_todo sample_db 1 = Some milk.
Proof.
  assert (Hab : user_a <> user_b) by discriminate.
  pose proof (C1_foreign_todo_unauthorized (sample_world user_b) (get "/toggle/1")
                milk user_a user_b sample_db_consistent
                (or_introl eq_refl) (or_introl eq_refl) (or_intror (or_introl eq_refl))
                eq_refl Hab eq_refl) as (Ht & _ & _ & Hg).
  pose proof (C1_foreign_todo_unauthorized (sample_world user_b) (get "/delete/1")
                milk user_a user_b sample_db_consistent
                (or_introl eq_refl) (or_introl eq_refl) (or_intror (or_introl eq_refl))
                eq_refl Hab eq_refl) as (_ & Hd & _ & _).
  split; [exact Ht | split; [exact Hd | exact Hg]].
Defined.

(** An unknown address, and the address of [a@x.com] with a wrong
    password. *)
Lemma C2_witness :
  let w := {| db := sample_db; session := anonymous |} in
  let r1 := post "/login" [("email", "nobody@x.com"); ("password", "secret1")] in
  let r2 := post "/login" [("email", "a@x.com"); ("password", "secret2")] in
  @login demo_external r1 w = @login demo_external r2 w /\
  fst (@login demo_external r1 w) = Render "login.html" [] [] /\
  flashes (session (snd (@login demo_external r2 w))) =
    [("danger", "Invalid email or password")].
Proof.
  intros w r1 r2.
  destruct (@C2_login_failures_indistinguishable demo_external w r1 r2 user_a
              eq_refl eq_refl eq_refl eq_refl eq_refl) as (H1 & H2 & _).
  rewrite H1, H2. repeat split.
Defined.

(** [a@x.com] is registered a second time. *)
Lemma C3_witness :
  let w := {| db := sample_db; session := anonymous |} in
  @register demo_external "s3" register_a w =
    (Redirect "/register", flashed w "danger" "Email already registered") /\
  insert_user sample_db (User.new "a@x.com") = Raised IntegrityError /\
  filter (fun u' => String.eqb (User.email u') "a@x.com") (users sample_db) = [user_a].
Proof.
  intros w.
  destruct (@C3_duplicate_email_rejected demo_external sample_db anonymous "s3"
              register_a user_a (User.new "a@x.com") sample_db_reachable
              (or_introl eq_refl) eq_refl eq_refl eq_refl) as (H1 & H2 & _ & H4).
  split; [exact H1 | split; [exact H2 | exact H4]].
Defined.

(** A todo of 201 characters. *)
Lemma C5_witness :
  let request := post "/" [("content", replicate 201 "x")] in
  @index demo_external request (sample_world user_a) =
    (Render "index.html" [("content", ["Todo must be less than 200 characters"])] [milk],
     sample_world user_a).
Proof.
  intros request.
  assert (Hlong : 200 < len (data (todo_form request) "content")) by now vm_compute.
  destruct (@C5_add_rejects_empty_or_long demo_external (sample_world user_a) request
              user_a eq_refl (or_intror Hlong)) as (H1 & _ & _).
  exact H1.
Defined.



(** A content that is not empty, yet blank: one space.  It is within the
    200 characters, and [DataRequired] refuses it; nothing is added. *)
Lemma C7_blank_content_not_added :
  let request := post "/" [("content", " ")] in
  let content := data (todo_form request) "content" in
  fst (current_user (sample_world user_a)) = Some user_a /\
  content <> EmptyString /\
  len content <= 200 /\
  @index demo_external request (sample_world user_a) =
    (Render "index.html" [("content", ["This field is required."])] [milk],
     sample_world user_a) /\
  todos_of (db (snd (@index demo_external request (sample_world user_a)))) 1 = [milk].
Proof.
  cbv zeta. split; [reflexivity|]. split; [discriminate|].
  split; [now vm_compute|]. split; reflexivity.
Qed.

(** [a@x.com] adds "buy milk" a second time, and the scenario of section 8
    is run with the test double. *)
Lemma C7_witness :
  @index demo_external add_milk (sample_world user_a) =
    (Redirect "/",
     {| db := {| users := [user_a; user_b];
                 todos := [ milk;
                            {| Todo.id := 2; Todo.content := "buy milk";
                               Todo.completed := false; Todo.user_id := 1 |} ] |};
        session := logged_in user_a |}) /\
  fst (@index demo_external (get "/")
         (snd (delete 1 (get "/delete/1")
            (snd (toggle 1 (get "/toggle/1")
               (snd (@index demo_external add_milk
                  (snd (@login demo_external login_a
                     (snd (@register demo_external "s1" register_a
                             fresh_world)))))))))))
  = Render "index.html" [] [].
Proof.
  destruct (@C7_add_then_list_and_scenario demo_external) as (Hadd & Hrun).
  assert (Hshort : len (data (todo_form add_milk) "content") <= 200) by now vm_compute.
  destruct (Hadd (sample_world user_a) add_milk user_a eq_refl eq_refl eq_refl
              eq_refl Hshort) as (H1 & _).
  pose proof (Hrun "s1" eq_refl eq_refl) as Hs. cbv zeta in Hs.
  destruct Hs as (_ & _ & _ & _ & _ & _ & _ & _ & H9 & _).
  split; [exact H1 | exact H9].
Defined.

(** [a@x.com] is deleted; its todo goes too. *)
Lemma C8_witness :
  get_todo (delete_user sample_db 1) 1 = None /\
  todos (delete_user sample_db 1) = [] /\
  users (delete_user sample_db 1) = [user_b].
Proof.
  destruct (@C8_delete_user_cascades demo_external sample_db 1 sample_db_reachable)
    as (Hgone & _).
  split; [exact (Hgone milk (or_introl eq_refl) eq_refl) | split; reflexivity].
Defined.

(** [logout] with nobody logged in is not a no-op: the session gains the
    login notice, and the answer is the redirect of the access gate, with
    [/logout] to come back to. *)
Lemma C9_anonymous_logout_not_noop :
  fst (current_user fresh_world) = None /\
  logout (get "/logout") fresh_world =
    (LoginRedirect "/logout",
     {| db := empty_db;
        session := {| session_user_id := None; session_remember := false;
                      flashes := [("message", "Please log in to access this page.")] |} |}) /\
  snd (logout (get "/logout") fresh_world) <> fresh_world.
Proof.
  split; [reflexivity|]. split; [reflexivity|]. discriminate.
Qed.

(** A password of three characters, confirmed. *)
Lemma C10_witness :
  let request :=
    post "/register" [("email", "c@x.com"); ("password", "abc"); ("password2", "abc")] in
  @register demo_external "s3" request fresh_world =
    (Render "register.html"
       [("password", ["Field must be at least 6 characters long."])] [],
     fresh_world).
Proof.
  intros request.
  assert (Hshort : len (data (register_form request) "password") < 6) by now vm_compute.
  destruct (@C10_register_rejects_short_or_unconfirmed demo_external fresh_world "s3"
              request (or_introl Hshort)) as (H1 & _).
  exact H1.
Defined.


(** * Further properties *)

(** ** What each form accepts *)

Section FormsAccept.
Context `{External}.

Lemma field_errors_none (f : BoundForm) (fs : list Field) (fd : Field) :
  field_errors f fs = [] -> In fd fs ->
  run_validation_chain f (field_name fd) (validators fd) = [].
Proof.
  intros Hnone Hin.
  destruct (run_validation_chain f (field_name fd) (validators fd)) as [|m ms] eqn:E;
    [reflexivity|].
  assert (Hne : run_validation_chain f (field_name fd) (validators fd) <> [])
    by (rewrite E; discriminate).
  pose proof (field_errors_In f fs fd Hin Hne) as Hbad.
  rewrite Hnone in Hbad. destruct Hbad.
Qed.

Lemma accepted_parts (f : BoundForm) :
  validate_on_submit f = true ->
  method (request_of f) = POST /\ csrf_error (request_of f) = None /\
  field_errors f (fields f) = [].
Proof.
  intros Hv. destruct (validate_on_submit_true f Hv) as (Hm & Hval & _).
  unfold validate, csrf_errors in Hval. apply app_eq_nil in Hval as [Hc Hf].
  split; [exact Hm | split; [|exact Hf]].
  destruct (csrf_error (request_of f)); [discriminate | reflexivity].
Qed.

Lemma TodoForm_accepted_inv (request : Request) :
  validate_on_submit (todo_form request) = true ->
  method request = POST /\ csrf_error request = None /\
  strip_nonempty (data (todo_form request) "content") = true /\
  len (data (todo_form request) "content") <= 200.
Proof.
  intros Hv. destruct (accepted_parts _ Hv) as (Hm & Hc & Hf).
  split; [exact Hm | split; [exact Hc|]].
  cbn [fields todo_form] in Hf. fold (todo_form request) in Hf.
  rewrite TodoForm_field_errors in Hf. cbv zeta in Hf.
  destruct (strip_nonempty _); [|discriminate].
  destruct (len _ <=? 200) eqn:E; [|discriminate].
  split; [reflexivity | now apply Z.leb_le].
Qed.

Lemma RegisterForm_accepted_inv (request : Request) :
  let form := register_form request in
  validate_on_submit form = true ->
  method request = POST /\ csrf_error request = None /\
  strip_nonempty (data form "email") = true /\
  validate_email (data form "email") = true /\
  strip_nonempty (data form "password") = true /\
  6 <= len (data form "password") /\
  data form "password2" = data form "password".
Proof.
  intros form Hv. destruct (accepted_parts _ Hv) as (Hm & Hc & Hf).
  split; [exact Hm | split; [exact Hc|]].
  cbn [fields form register_form] in Hf. fold form in Hf.
  pose proof (field_errors_none form RegisterForm
                {| field_name := "email"; field_kind := StringField;
                   field_label := "Email"; validators := [DataRequired; Email] |}
                Hf (or_introl eq_refl)) as He.
  pose proof (field_errors_none form RegisterForm
                {| field_name := "password"; field_kind := PasswordField;
                   field_label := "Password";
                   validators := [DataRequired; Length 6 (-1) None] |}
                Hf (or_intror (or_introl eq_refl))) as Hp.
  pose proof (field_errors_none form RegisterForm
                {| field_name := "password2"; field_kind := PasswordField;
                   field_label := "Confirm Password";
                   validators := [DataRequired;
                                  EqualTo "password" "Passwords must match"] |}
                Hf (or_intror (or_intror (or_introl eq_refl)))) as Hq.
  cbn [field_name validators run_validation_chain run_validator] in He, Hp, Hq.
  destruct (strip_nonempty (data form "email")); [|discriminate].
  destruct (validate_email (data form "email")); [|discriminate].
  destruct (strip_nonempty (data form "password")); [|discriminate].
  destruct (6 <=? len (data form "password")) eqn:E6; [|discriminate].
  destruct (strip_nonempty (data form "password2")); [|discriminate].
  destruct (String.eqb (data form "password2") (data form "password")) eqn:Eq;
    [|discriminate].
  repeat split; [now apply Z.leb_le | now apply String.eqb_eq].
Qed.

Lemma LoginForm_accepted_inv (request : Request) :
  let form := login_form request in
  validate_on_submit form = true ->
  method request = POST /\ csrf_error request = None /\
  strip_nonempty (data form "email") = true /\
  validate_email (data form "email") = true /\
  strip_nonempty (data form "password") = true.
Proof.
  intros form Hv. destruct (accepted_parts _ Hv) as (Hm & Hc & Hf).
  split; [exact Hm | split; [exact Hc|]].
  cbn [fields form login_form] in Hf. fold form in Hf.
  pose proof (field_errors_none form LoginForm
                {| field_name := "email"; field_kind := StringField;
                   field_label := "Email"; validators := [DataRequired; Email] |}
                Hf (or_introl eq_refl)) as He.
  pose proof (field_errors_none form LoginForm
                {| field_name := "password"; field_kind := PasswordField;
                   field_label := "Password"; validators := [DataRequired] |}
                Hf (or_intror (or_introl eq_refl))) as Hp.
  cbn [field_name validators run_validation_chain run_validator] in He, Hp.
  destruct (strip_nonempty (data form "email")); [|discriminate].
  destruct (validate_email (data form "email")); [|discriminate].
  destruct (strip_nonempty (data form "password")); [|discriminate].
  repeat split.
Qed.

(** [RegisterForm] passes exactly the POSTs with a valid CSRF token, an
    e-mail that is not blank and has e-mail syntax, a password that is not
    blank and has 6 characters or more, and a confirmation equal to the
    password. *)
Theorem RegisterForm_accepts_exactly (request : Request) :
  let form := register_form request in
  validate_on_submit form = true <->
  method request = POST /\ csrf_error request = None /\
  strip_nonempty (data form "email") = true /\
  validate_email (data form "email") = true /\
  strip_nonempty (data form "password") = true /\
  6 <= len (data form "password") /\
  data form "password2" = data form "password".
Proof.
  intros form. split; [apply RegisterForm_accepted_inv|].
  intros (Hm & Hc & He1 & He2 & Hp1 & Hp2 & Hq).
  apply RegisterForm_accepts; try assumption.
  fold form. now rewrite Hq.
Qed.

(** [LoginForm] passes exactly the POSTs with a valid CSRF token, an
    e-mail that is not blank and has e-mail syntax, and a password that is
    not blank; it puts no bound on the password's length. *)
Theorem LoginForm_accepts_exactly (request : Request) :
  let form := login_form request in
  validate_on_submit form = true <->
  method request = POST /\ csrf_error request = None /\
  strip_nonempty (data form "email") = true /\
  validate_email (data form "email") = true /\
  strip_nonempty (data form "password") = true.
Proof.
  intros form. split; [apply LoginForm_accepted_inv|].
  intros (Hm & Hc & He1 & He2 & Hp1). now apply LoginForm_accepts.
Qed.

(** [TodoForm] passes exactly the POSTs with a valid CSRF token and a
    content that is not blank and has 200 characters or fewer: exactly 200
    is accepted. *)
Theorem TodoForm_accepts_exactly (request : Request) :
  let content := data (todo_form request) "content" in
  validate_on_submit (todo_form request) = true <->
  method request = POST /\ csrf_error request = None /\
  strip_nonempty content = true /\ len content <= 200.
Proof.
  intros content. split; [apply TodoForm_accepted_inv|].
  intros (Hm & Hc & Hs & Hl). now apply TodoForm_accepts.
Qed.

End FormsAccept.

(** ** What a request can do to the store *)

Section Effects.
Context `{External}.

(** The five things a handled request does to the store: nothing, the
    insertion of a user, the insertion of a todo of the logged-in user
    with a content the form passed, and the toggling or the deletion of a
    todo the logged-in user owns. *)
Lemma dispatch_effect (r : Route) (request : Request) (w : World) :
  let d := db w in
  let d' := db (snd (dispatch r request w)) in
  d' = d \/
  (exists u, insert_user d u = Ok d') \/
  (exists cu content,
     fst (current_user w) = Some cu /\
     strip_nonempty content = true /\ len content <= 200 /\
     d' = insert_todo d (Todo.new content (User.id cu))) \/
  (exists cu t,
     fst (current_user w) = Some cu /\ get_todo d (Todo.id t) = Some t /\
     Todo.user_id t = User.id cu /\
     d' = update_completed d (Todo.id t) (negb (Todo.completed t))) \/
  (exists cu t,
     fst (current_user w) = Some cu /\ get_todo d (Todo.id t) = Some t /\
     Todo.user_id t = User.id cu /\
     d' = delete_todo d (Todo.id t)).
Proof.
  intros d d'. subst d d'. destruct r as [salt| | | |i|i]; cbn [dispatch].
  - unfold register, register_commit. run.
    destruct (validate_on_submit _); [|now left].
    destruct (user_by_email (db w) _); [now left|].
    destruct (insert_user (db w) _) as [d'|e] eqn:E; cbn; [|now left].
    right; left. eexists. exact E.
  - left. apply login_db.
  - left. apply logout_db.
  - unfold index. destruct (fst (current_user w)) as [cu|] eqn:Ecu.
    + rewrite (login_required_as w request cu _ Ecu).
      destruct (validate_on_submit (todo_form request)) eqn:Ev; [|now left].
      destruct (TodoForm_accepted_inv request Ev) as (_ & _ & Hs & Hl).
      right; right; left. exists cu, (data (todo_form request) "content").
      repeat split; assumption.
    + rewrite (login_required_anonymous w request _ Ecu). now left.
  - unfold toggle. destruct (fst (current_user w)) as [cu|] eqn:Ecu.
    + rewrite (login_required_as w request cu _ Ecu). run.
      destruct (db_session_get_todo (db w) i) as [[t|]|e] eqn:Es;
        [|now left|now left].
      pose proof (db_session_get_todo_some _ _ _ Es) as Et.
      destruct (Todo.user_id t =? User.id cu) eqn:Eo; cbn [negb]; [|now left].
      right; right; right; left. exists cu, t.
      destruct (find_some_id_todo _ _ _ Et) as [_ Hid]. rewrite Hid.
      repeat split; [assumption | now apply Z.eqb_eq].
    + rewrite (login_required_anonymous w request _ Ecu). now left.
  - unfold delete. destruct (fst (current_user w)) as [cu|] eqn:Ecu.
    + rewrite (login_required_as w request cu _ Ecu). run.
      destruct (db_session_get_todo (db w) i) as [[t|]|e] eqn:Es;
        [|now left|now left].
      pose proof (db_session_get_todo_some _ _ _ Es) as Et.
      destruct (Todo.user_id t =? User.id cu) eqn:Eo; cbn [negb]; [|now left].
      right; right; right; right. exists cu, t.
      destruct (find_some_id_todo _ _ _ Et) as [_ Hid]. rewrite Hid.
      repeat split; [assumption | now apply Z.eqb_eq].
    + rewrite (login_required_anonymous w request _ Ecu). now left.
Qed.

End Effects.

Lemma insert_user_effect (d d' : Database) (u : User.t) :
  insert_user d u = Ok d' ->
  todos d' = todos d /\
  users d' = (users d ++
              [ {| User.id := next_id (map User.id (users d));
                   User.email := User.email u;
                   User.password := User.password u |} ])%list.
Proof.
  unfold insert_user. destruct (existsb _ (users d)); [discriminate|].
  intros [= <-]. split; reflexivity.
Qed.

Lemma filter_map_unchanged {A : Type} (p : A -> bool) (f : A -> A) (l : list A) :
  (forall x, In x l -> p (f x) = p x /\ (p x = true -> f x = x)) ->
  filter p (map f l) = filter p l.
Proof.
  induction l as [|a l IH]; cbn [map filter]; intros Hf; [reflexivity|].
  destruct (Hf a (or_introl eq_refl)) as [Hp Hx]. rewrite Hp.
  rewrite IH by (intros x Hin; apply Hf; now right).
  destruct (p a); [now rewrite Hx | reflexivity].
Qed.

Lemma filter_filter_unchanged {A : Type} (p q : A -> bool) (l : list A) :
  (forall x, In x l -> p x = true -> q x = true) ->
  filter p (filter q l) = filter p l.
Proof.
  induction l as [|a l IH]; cbn [filter]; intros Hpq; [reflexivity|].
  rewrite <- IH by (intros x Hin; apply Hpq; now right).
  destruct (q a) eqn:Eq; [reflexivity|].
  destruct (p a) eqn:Ep; [|reflexivity].
  rewrite (Hpq a (or_introl eq_refl) Ep) in Eq. discriminate.
Qed.

Section Isolation.
Context `{External}.

(** Whatever the request and the route, a request handled for a logged-in
    user other than [A], or for nobody, leaves the list of [A]'s todos
    exactly as it was: same rows, same order, same flags. *)
Theorem other_users_todos_untouched
  (r : Route) (request : Request) (w : World) (A : Z) :
  consistent (db w) ->
  (forall cu, fst (current_user w) = Some cu -> User.id cu <> A) ->
  todos_of (db (snd (dispatch r request w))) A = todos_of (db w) A.
Proof.
  intros Hc Hother.
  destruct (dispatch_effect r request w)
    as [->|[(u & Hu)|[(cu & c & Hcu & _ & _ & ->)|[(cu & t & Hcu & Ht & Ho & ->)
       |(cu & t & Hcu & Ht & Ho & ->)]]]]; [reflexivity| | | |].
  - unfold todos_of. now rewrite (proj1 (insert_user_effect _ _ _ Hu)).
  - unfold todos_of, insert_todo. cbn [todos Todo.new Todo.user_id].
    rewrite filter_app. cbn [filter Todo.user_id].
    replace (User.id cu =? A) with false
      by (symmetry; apply Z.eqb_neq; now apply Hother).
    apply app_nil_r.
  - unfold todos_of, update_completed. cbn [todos].
    apply filter_map_unchanged. intros x Hin.
    destruct (Todo.id x =? Todo.id t) eqn:E; cbn [Todo.user_id]; [|tauto].
    split; [reflexivity|]. intros HA. exfalso.
    destruct (find_some_id_todo _ _ _ Ht) as [Hint _].
    assert (x = t) as ->
      by (eapply NoDup_map_same; eauto; [apply Hc | now apply Z.eqb_eq]).
    apply (Hother cu Hcu). rewrite <- Ho. now apply Z.eqb_eq.
  - unfold todos_of, delete_todo. cbn [todos].
    apply filter_filter_unchanged. intros x Hin HA.
    apply negb_true_iff. apply Z.eqb_neq. intros E.
    destruct (find_some_id_todo _ _ _ Ht) as [Hint _].
    assert (x = t) as -> by (eapply NoDup_map_same; eauto; apply Hc).
    apply (Hother cu Hcu). rewrite <- Ho. now apply Z.eqb_eq.
Qed.

(** No handler removes or rewrites a row of [users]: after any request
    the table is the former one, followed by at most one new row.  So the
    e-mail and the stored password of a user never change. *)
Theorem users_only_appended (r : Route) (request : Request) (w : World) :
  exists added,
    users (db (snd (dispatch r request w))) = (users (db w) ++ added)%list /\
    (List.length added <= 1)%nat.
Proof.
  destruct (dispatch_effect r request w)
    as [->|[(u & Hu)|[(cu & c & _ & _ & _ & ->)|[(cu & t & _ & _ & _ & ->)
       |(cu & t & _ & _ & _ & ->)]]]];
    try (exists []; split; [now rewrite app_nil_r | cbn; lia]).
  eexists. split; [exact (proj2 (insert_user_effect _ _ _ Hu)) | cbn; lia].
Qed.

(** In every reachable store each todo has a content that passed
    [TodoForm]: not blank, and within the 200 characters of the column. *)
Theorem stored_contents_within_bounds (d : Database) :
  reachable d ->
  forall t, In t (todos d) ->
    strip_nonempty (Todo.content t) = true /\ len (Todo.content t) <= 200.
Proof.
  induction 1 as [|d d' _ IH Hs]; [intros t []|].
  destruct Hs as [r request s d|user s d|uid d].
  - destruct (dispatch_effect r request {| db := d; session := s |})
      as [->|[(u & Hu)|[(cu & c & _ & Hs & Hl & ->)|[(cu & t0 & _ & _ & _ & ->)
         |(cu & t0 & _ & _ & _ & ->)]]]]; cbn [db] in *.
    + exact IH.
    + now rewrite (proj1 (insert_user_effect _ _ _ Hu)).
    + intros t Hin. cbn [insert_todo todos] in Hin.
      apply in_app_iff in Hin as [Hin|[<-|[]]]; [now apply IH | now split].
    + intros t Hin. cbn [update_completed todos] in Hin.
      apply in_map_iff in Hin as (x & <- & Hin).
      destruct (Todo.id x =? Todo.id t0); [cbn [Todo.content]|]; now apply IH.
    + intros t Hin. cbn [delete_todo todos] in Hin.
      apply filter_In in Hin as [Hin _]. now apply IH.
  - unfold register_commit. run.
    destruct (insert_user d user) as [d'|e] eqn:E; cbn; [|exact IH].
    now rewrite (proj1 (insert_user_effect _ _ _ E)).
  - intros t Hin. cbn [delete_user todos] in Hin.
    apply filter_In in Hin as [Hin _]. now apply IH.
Qed.

(** In every reachable store a row is what the lookup by its key returns:
    [db.session.get] by a todo's or a user's id, and the query by a user's
    e-mail, give back that very row. *)
Theorem stored_rows_found_by_key (d : Database) :
  reachable d ->
  (forall t, In t (todos d) -> get_todo d (Todo.id t) = Some t) /\
  (forall u, In u (users d) ->
     get_user d (User.id u) = Some u /\ user_by_email d (User.email u) = Some u).
Proof.
  intros Hr. pose proof (reachable_consistent d Hr) as [Hu He Ht _].
  split.
  - intros t Hin. now apply find_unique_todo.
  - intros u Hin. split; [now apply find_unique_user | now apply user_by_email_unique].
Qed.

End Isolation.

(** ** Toggle and delete, case by case *)

Lemma toggle_cases (i : Z) (request : Request) (w : World) :
  toggle i request w =
  match fst (current_user w) with
  | None => (LoginRedirect (path request), flashed w "message" login_message)
  | Some cu =>
      match db_session_get_todo (db w) i with
      | Raised e => (InternalServerError e, w)
      | Ok None => (Redirect "/", flashed w "danger" "Todo not found")
      | Ok (Some t) =>
          if Todo.user_id t =? User.id cu
          then (Redirect "/",
                {| db := update_completed (db w) (Todo.id t) (negb (Todo.completed t));
                   session := session w |})
          else (Redirect "/", flashed w "danger" "Unauthorized")
      end
  end.
Proof.
  unfold toggle. destruct (fst (current_user w)) as [cu|] eqn:Ecu.
  - rewrite (login_required_as w request cu _ Ecu). run.
    destruct (db_session_get_todo (db w) i) as [[t|]|e]; [|reflexivity|reflexivity].
    now destruct (Todo.user_id t =? User.id cu).
  - now rewrite (login_required_anonymous w request _ Ecu).
Qed.

Lemma delete_cases (i : Z) (request : Request) (w : World) :
  delete i request w =
  match fst (current_user w) with
  | None => (LoginRedirect (path request), flashed w "message" login_message)
  | Some cu =>
      match db_session_get_todo (db w) i with
      | Raised e => (InternalServerError e, w)
      | Ok None => (Redirect "/", flashed w "danger" "Todo not found")
      | Ok (Some t) =>
          if Todo.user_id t =? User.id cu
          then (Redirect "/",
                flashed {| db := delete_todo (db w) (Todo.id t); session := session w |}
                        "success" "Todo deleted")
          else (Redirect "/", flashed w "danger" "Unauthorized")
      end
  end.
Proof.
  unfold delete. destruct (fst (current_user w)) as [cu|] eqn:Ecu.
  - rewrite (login_required_as w request cu _ Ecu). run.
    destruct (db_session_get_todo (db w) i) as [[t|]|e]; [|reflexivity|reflexivity].
    now destruct (Todo.user_id t =? User.id cu).
  - now rewrite (login_required_anonymous w request _ Ecu).
Qed.

Lemma get_todo_delete_same (d : Database) (i : Z) :
  get_todo (delete_todo d i) i = None.
Proof.
  unfold get_todo, delete_todo. cbn [todos]. apply find_none_filtered_todo.
  intros t _ Hid. now rewrite Hid, Z.eqb_refl.
Qed.

Lemma get_todo_delete_other (d : Database) (i j : Z) :
  j <> i -> get_todo (delete_todo d i) j = get_todo d j.
Proof.
  intros Hji. unfold get_todo, delete_todo. cbn [todos].
  induction (todos d) as [|a l IH]; cbn [find filter]; [reflexivity|].
  destruct (Todo.id a =? i) eqn:E; cbn [negb find].
  - apply Z.eqb_eq in E.
    replace (Todo.id a =? j) with false by (symmetry; apply Z.eqb_neq; lia).
    exact IH.
  - destruct (Todo.id a =? j); [reflexivity | exact IH].
Qed.

(** With requester [R] logged in: [delete I] of a key no todo has flashes
    "Todo not found" and leaves the store alone when the key is within the
    64-bit integers of the store, and is a server error ([OverflowError]
    from the lookup) with nothing flashed and nothing changed when it is
    beyond them; [delete I] of a todo [R] owns commits the store without
    that row, flashes "Todo deleted" and redirects to the list.  The key
    then fetches nothing, every other key fetches what it did, every other
    row is still there, and the users are untouched. *)
Theorem delete_removes_owned_todo
  (w : World) (request : Request) (R : User.t) (I : Z) :
  fst (current_user w) = Some R ->
  (get_todo (db w) I = None -> key_in_range I = true ->
   delete I request w =
   (Redirect (url_for "index"), flashed w "danger" "Todo not found")) /\
  (get_todo (db w) I = None -> key_in_range I = false ->
   delete I request w = (InternalServerError OverflowError, w)) /\
  (forall t, get_todo (db w) I = Some t -> Todo.user_id t = User.id R ->
   let d' := delete_todo (db w) I in
   delete I request w =
   (Redirect (url_for "index"),
    flashed {| db := d'; session := session w |} "success" "Todo deleted") /\
   get_todo d' I = None /\
   (forall J, J <> I -> get_todo d' J = get_todo (db w) J) /\
   (forall t', In t' (todos (db w)) -> Todo.id t' <> I -> In t' (todos d')) /\
   (forall t', In t' (todos d') -> In t' (todos (db w)) /\ Todo.id t' <> I) /\
   users d' = users (db w)).
Proof.
  intros Hcu. split; [|split].
  - intros Hnone Hrange.
    now rewrite delete_cases, Hcu, (db_session_get_todo_absent _ _ Hnone Hrange).
  - intros Hnone Hrange.
    now rewrite delete_cases, Hcu, (db_session_get_todo_beyond _ _ Hnone Hrange).
  - intros t Hsome Hown d'. split; [|split; [|split; [|split; [|split]]]].
    + rewrite delete_cases, Hcu, (db_session_get_todo_found _ _ _ Hsome).
      replace (Todo.user_id t =? User.id R) with true
        by (symmetry; now apply Z.eqb_eq).
      destruct (find_some_id_todo _ _ _ Hsome) as [_ ->]. reflexivity.
    + apply get_todo_delete_same.
    + intros J HJ. now apply get_todo_delete_other.
    + intros t' Hin Hne. cbn [d' delete_todo todos]. apply filter_In.
      split; [assumption|]. apply negb_true_iff. now apply Z.eqb_neq.
    + intros t' Hin. cbn [d' delete_todo todos] in Hin.
      apply filter_In in Hin as [Hin Hne]. split; [assumption|].
      apply negb_true_iff in Hne. now apply Z.eqb_neq.
    + reflexivity.
Qed.

(** Deleting twice is deleting once: whoever asks and whatever the key,
    the second [delete] of the same key leaves the store as the first one
    left it. *)
Theorem delete_twice_is_delete_once (w : World) (r1 r2 : Request) (I : Z) :
  db (snd (delete I r2 (snd (delete I r1 w)))) = db (snd (delete I r1 w)).
Proof.
  rewrite (delete_cases I r1 w).
  destruct (fst (current_user w)) as [cu|] eqn:Ecu.
  - destruct (db_session_get_todo (db w) I) as [[t|]|e] eqn:Es.
    + pose proof (db_session_get_todo_some _ _ _ Es) as Et.
      destruct (Todo.user_id t =? User.id cu) eqn:Eo; cbn [snd].
      * rewrite delete_cases.
        change (fst (current_user (flashed _ "success" "Todo deleted")))
          with (fst (current_user w)).
        rewrite Ecu. cbn [flashed db].
        destruct (find_some_id_todo _ _ _ Et) as [_ <-].
        unfold db_session_get_todo. rewrite get_todo_delete_same.
        now destruct (key_in_range (Todo.id t)).
      * rewrite delete_cases.
        change (fst (current_user (flashed w "danger" "Unauthorized")))
          with (fst (current_user w)).
        rewrite Ecu. cbn [flashed db]. now rewrite Es, Eo.
    + cbn [snd]. rewrite delete_cases.
      change (fst (current_user (flashed w "danger" "Todo not found")))
        with (fst (current_user w)).
      rewrite Ecu. cbn [flashed db]. now rewrite Es.
    + cbn [snd]. rewrite delete_cases, Ecu. now rewrite Es.
  - cbn [snd]. rewrite delete_cases.
    change (fst (current_user (flashed w "message" login_message)))
      with (fst (current_user w)).
    now rewrite Ecu.
Qed.

Lemma toggle_back_rows (l : list Todo.t) (t : Todo.t) :
  NoDup (map Todo.id l) -> In t l ->
  map (fun x =>
         if Todo.id x =? Todo.id t
         then {| Todo.id := Todo.id x; Todo.content := Todo.content x;
                 Todo.completed := negb (negb (Todo.completed t));
                 Todo.user_id := Todo.user_id x |}
         else x)
      (map (fun x =>
              if Todo.id x =? Todo.id t
              then {| Todo.id := Todo.id x; Todo.content := Todo.content x;
                      Todo.completed := negb (Todo.completed t);
                      Todo.user_id := Todo.user_id x |}
              else x) l) = l.
Proof.
  intros Hnd Hin. rewrite map_map. rewrite <- (map_id l) at 2.
  apply map_ext_in. intros x Hx.
  destruct (Todo.id x =? Todo.id t) eqn:E; cbn [Todo.id]; rewrite E; [|reflexivity].
  assert (x = t) as -> by (eapply NoDup_map_same; eauto; now apply Z.eqb_eq).
  rewrite negb_involutive. now destruct t.
Qed.

(** Toggling twice gives back the world one started from: in a store with
    unique keys, two [toggle]s of a todo by its owner leave the store and
    the session exactly as they were. *)
Theorem toggle_twice_restores
  (w : World) (r1 r2 : Request) (R : User.t) (t : Todo.t) (I : Z) :
  consistent (db w) ->
  fst (current_user w) = Some R ->
  get_todo (db w) I = Some t ->
  Todo.user_id t = User.id R ->
  snd (toggle I r2 (snd (toggle I r1 w))) = w.
Proof.
  intros Hc Hcu Ht Ho.
  destruct (find_some_id_todo _ _ _ Ht) as [Hin <-].
  rewrite (toggle_cases (Todo.id t) r1 w), Hcu, (db_session_get_todo_found _ _ _ Ht).
  replace (Todo.user_id t =? User.id R) with true by (symmetry; now apply Z.eqb_eq).
  cbn [snd]. rewrite toggle_cases.
  change (fst (current_user {| db := update_completed (db w) (Todo.id t)
                                       (negb (Todo.completed t));
                               session := session w |}))
    with (fst (current_user w)).
  rewrite Hcu. cbn [db].
  rewrite (db_session_get_todo_found _ _ _ (get_todo_update_same _ _ _ _ Ht)).
  cbn [Todo.user_id Todo.id Todo.completed].
  replace (Todo.user_id t =? User.id R) with true by (symmetry; now apply Z.eqb_eq).
  cbn [snd]. unfold update_completed. cbn [users todos session].
  rewrite (toggle_back_rows _ t (todo_ids_unique _ Hc) Hin).
  destruct w as [[us ts] s]. reflexivity.
Qed.

(** ** The access gate *)

(** A session that names nobody, or names a user the store no longer has,
    is anonymous: [index], [toggle] and [delete] then do not run.  Each
    flashes the login notice and redirects to the login page with the path
    asked for; the store is untouched. *)
Theorem anonymous_requests_are_gated `{External}
  (w : World) (request : Request) (i : Z) :
  session_user_id (session w) = None \/
  (exists k, session_user_id (session w) = Some k /\ get_user (db w) k = None) ->
  let gated := (LoginRedirect (path request),
                flashed w "message" "Please log in to access this page.") in
  index request w = gated /\
  toggle i request w = gated /\
  delete i request w = gated /\
  db (snd gated) = db w.
Proof.
  intros Hanon gated.
  assert (Hcu : fst (current_user w) = None).
  { unfold current_user, load_user. cbn [fst].
    destruct Hanon as [->|(k & -> & Hk)]; [reflexivity | exact Hk]. }
  split; [|split; [|split]].
  - unfold index. now rewrite (login_required_anonymous w request _ Hcu).
  - now rewrite toggle_cases, Hcu.
  - now rewrite delete_cases, Hcu.
  - reflexivity.
Qed.

(** After [logout], whoever was logged in, the session is anonymous for
    the handlers that follow: [index], [toggle] and [delete] are answered
    by the redirect to the login page and leave the store as it was. *)
Theorem logout_locks_the_session `{External}
  (w : World) (r request : Request) (i : Z) :
  let w' := snd (logout r w) in
  fst (index request w') = LoginRedirect (path request) /\
  fst (toggle i request w') = LoginRedirect (path request) /\
  fst (delete i request w') = LoginRedirect (path request) /\
  db (snd (index request w')) = db w /\
  db (snd (toggle i request w')) = db w /\
  db (snd (delete i request w')) = db w.
Proof.
  intros w'.
  assert (Hout : fst (current_user w') = None /\ db w' = db w).
  { unfold w', logout. destruct (fst (current_user w)) as [u|] eqn:E.
    - rewrite (login_required_as w r u _ E). split; reflexivity.
    - rewrite (login_required_anonymous w r _ E). split; [exact E | reflexivity]. }
  destruct Hout as [Hcu Hdb].
  unfold index. rewrite (login_required_anonymous w' request _ Hcu).
  rewrite !toggle_cases, !delete_cases, Hcu. cbn [fst snd flashed db].
  repeat split; exact Hdb.
Qed.

(** ** Requests that change nothing *)

Section Harmless.
Context `{External}.

(** A GET of the registration page or of the login page, by anybody, and
    a GET of the list by a logged-in user, is answered by the page without
    form errors (the list page with exactly that user's todos), and
    changes neither the store nor who is logged in. *)
Theorem get_requests_change_nothing
  (w : World) (salt : string) (request : Request) :
  method request = GET ->
  (fst (register salt request w) = Render "register.html" [] [] /\
   db (snd (register salt request w)) = db w /\
   session_user_id (session (snd (register salt request w))) =
     session_user_id (session w)) /\
  (fst (login request w) = Render "login.html" [] [] /\
   db (snd (login request w)) = db w /\
   session_user_id (session (snd (login request w))) =
     session_user_id (session w)) /\
  (forall cu, fst (current_user w) = Some cu ->
   fst (index request w) = Render "index.html" [] (todos_of (db w) (User.id cu)) /\
   db (snd (index request w)) = db w /\
   session_user_id (session (snd (index request w))) =
     session_user_id (session w)).
Proof.
  intros Hget.
  assert (Hv : forall f, request_of f = request -> validate_on_submit f = false /\ errors f = []).
  { intros f Hf. unfold validate_on_submit, errors, is_submitted.
    rewrite Hf, Hget. split; reflexivity. }
  split; [|split].
  - unfold register. destruct (Hv (register_form request) eq_refl) as [-> ->].
    repeat split.
  - unfold login. destruct (Hv (login_form request) eq_refl) as [-> ->].
    repeat split.
  - intros cu Hcu. unfold index. rewrite (login_required_as w request cu _ Hcu).
    destruct (Hv (todo_form request) eq_refl) as [-> ->]. repeat split.
Qed.

(** A POST whose CSRF token is refused has no effect, whatever it
    carries and whoever sends it: [register] and [login], for anybody,
    and [index], for a logged-in user, render their page again with the
    token's error among the form errors, and change neither the store nor
    who is logged in. *)
Theorem csrf_failure_changes_nothing
  (w : World) (salt : string) (request : Request) (m : string) :
  method request = POST ->
  csrf_error request = Some m ->
  (fst (register salt request w) =
     Render "register.html" (errors (register_form request)) [] /\
   In ("csrf_token", [m]) (errors (register_form request)) /\
   db (snd (register salt request w)) = db w /\
   session_user_id (session (snd (register salt request w))) =
     session_user_id (session w)) /\
  (fst (login request w) = Render "login.html" (errors (login_form request)) [] /\
   In ("csrf_token", [m]) (errors (login_form request)) /\
   db (snd (login request w)) = db w /\
   session_user_id (session (snd (login request w))) =
     session_user_id (session w)) /\
  (forall cu, fst (current_user w) = Some cu ->
   fst (index request w) =
     Render "index.html" (errors (todo_form request)) (todos_of (db w) (User.id cu)) /\
   In ("csrf_token", [m]) (errors (todo_form request)) /\
   db (snd (index request w)) = db w /\
   session_user_id (session (snd (index request w))) =
     session_user_id (session w)).
Proof.
  intros Hpost Hcsrf.
  assert (Hv : forall f, request_of f = request ->
             validate_on_submit f = false /\ In ("csrf_token", [m]) (errors f)).
  { intros f Hf.
    assert (Hin : In ("csrf_token", [m]) (validate f)).
    { unfold validate, csrf_errors. rewrite Hf, Hcsrf. now left. }
    split.
    - apply validate_on_submit_false. intros E. rewrite E in Hin. exact Hin.
    - unfold errors, is_submitted. now rewrite Hf, Hpost. }
  destruct (Hv (register_form request) eq_refl) as [Hr Hre].
  destruct (Hv (login_form request) eq_refl) as [Hl Hle].
  destruct (Hv (todo_form request) eq_refl) as [Ht Hte].
  split; [|split].
  - unfold register. rewrite Hr. repeat split. exact Hre.
  - unfold login. rewrite Hl. repeat split. exact Hle.
  - intros cu Hcu. unfold index. rewrite (login_required_as w request cu _ Hcu).
    rewrite Ht. repeat split. exact Hte.
Qed.

End Harmless.

(** ** Logging in and registering *)

Lemma find_none_app {A : Type} (p : A -> bool) (l : list A) (x : A) :
  find p l = None -> p x = true -> find p (l ++ [x]) = Some x.
Proof.
  induction l as [|a l IH]; cbn [find app]; intros Hn Hx.
  - now rewrite Hx.
  - destruct (p a); [discriminate | auto].
Qed.

Lemma user_by_email_none (d : Database) (e : string) (u : User.t) :
  user_by_email d e = None -> User.email u = e ->
  existsb (fun u' => String.eqb (User.email u') (User.email u)) (users d) = false.
Proof.
  unfold user_by_email. intros Hn <-.
  induction (users d) as [|a l IH]; cbn [find existsb] in *; [reflexivity|].
  destruct (String.eqb (User.email a) (User.email u)); [discriminate | auto].
Qed.

Lemma get_user_fresh (l : list User.t) :
  find (fun u => User.id u =? next_id (map User.id l)) l = None.
Proof.
  destruct (find _ l) as [u|] eqn:E; [|reflexivity].
  apply find_some_id_user in E as [Hin Hid].
  exfalso. apply (next_id_fresh (map User.id l)). rewrite <- Hid. now apply in_map.
Qed.

Section Sessions.
Context `{External}.

(** The target of the redirect after a login: the [next] argument of the
    request when it is there and not empty, the list otherwise. *)
Lemma login_accepts (w : World) (request : Request) (u : User.t) :
  validate_on_submit (login_form request) = true ->
  user_by_email (db w) (data (login_form request) "email") = Some u ->
  User.check_password u (data (login_form request) "password") = true ->
  login request w =
    (Redirect match multidict_get "next" (args request) with
              | Some next_page =>
                  if String.eqb next_page EmptyString then "/" else next_page
              | None => "/"
              end,
     {| db := db w;
        session := {| session_user_id := Some (User.id u);
                      session_remember := checked (login_form request) "remember";
                      flashes := flashes (session w) |} |}).
Proof.
  intros Hv Hu Hp. unfold login. rewrite Hv. run. rewrite Hu, Hp.
  destruct (multidict_get "next" (args request)) as [n|]; [|reflexivity].
  now destruct (String.eqb n EmptyString).
Qed.

(** A submission that passes [LoginForm], with the e-mail of a stored user
    and a password [check_password] accepts, logs that user in: the
    session names the user and takes the form's remember flag, flashes and
    store are as before, and the browser is sent to the [next] argument of
    the request, whatever it is, or to the list when there is none or it
    is empty.  In a consistent store the session then resolves to that
    user. *)
Theorem login_success (w : World) (request : Request) (u : User.t) :
  consistent (db w) ->
  validate_on_submit (login_form request) = true ->
  user_by_email (db w) (data (login_form request) "email") = Some u ->
  User.check_password u (data (login_form request) "password") = true ->
  let w' := {| db := db w;
               session := {| session_user_id := Some (User.id u);
                             session_remember := checked (login_form request) "remember";
                             flashes := flashes (session w) |} |} in
  login request w =
    (Redirect match multidict_get "next" (args request) with
              | Some next_page =>
                  if String.eqb next_page EmptyString then "/" else next_page
              | None => "/"
              end, w') /\
  fst (current_user w') = Some u.
Proof.
  intros Hc Hv Hu Hp w'. split; [now apply login_accepts|].
  apply current_user_of_session; [exact Hc| |reflexivity].
  unfold user_by_email in Hu. now apply find_some in Hu as [Hin _].
Qed.

(** [login] has three outcomes and no other, each with its cause.  The
    form is refused: the page is rendered with its errors and nothing
    changes.  The form passes and the e-mail is unknown, or it is a stored
    user's and [check_password] refuses the password: "Invalid email or
    password" is flashed, the login page is rendered, nothing else
    changes.  The form passes, the e-mail is a stored user's and
    [check_password] accepts the password: the session is given to that
    user and the browser redirected.  The store never changes. *)
Theorem login_outcomes (w : World) (request : Request) :
  let form := login_form request in
  (validate_on_submit form = false /\
   login request w = (Render "login.html" (errors form) [], w)) \/
  (validate_on_submit form = true /\
   (user_by_email (db w) (data form "email") = None \/
    exists u, user_by_email (db w) (data form "email") = Some u /\
              User.check_password u (data form "password") = false) /\
   login request w =
     (Render "login.html" [] [], flashed w "danger" "Invalid email or password")) \/
  (exists u,
     validate_on_submit form = true /\
     user_by_email (db w) (data form "email") = Some u /\
     In u (users (db w)) /\ User.email u = data form "email" /\
     User.check_password u (data form "password") = true /\
     login request w =
       (Redirect match multidict_get "next" (args request) with
                 | Some next_page =>
                     if String.eqb next_page EmptyString then "/" else next_page
                 | None => "/"
                 end,
        {| db := db w;
           session := {| session_user_id := Some (User.id u);
                         session_remember := checked form "remember";
                         flashes := flashes (session w) |} |})).
Proof.
  intros form. destruct (validate_on_submit form) eqn:Ev.
  - right. destruct (validate_on_submit_true _ Ev) as (_ & _ & He).
    destruct (user_by_email (db w) (data form "email")) as [u|] eqn:Eu.
    + destruct (User.check_password u (data form "password")) eqn:Ep.
      * right. exists u. rewrite (login_accepts w request u Ev Eu Ep).
        unfold user_by_email in Eu. apply find_some in Eu as [Hin Heq].
        apply String.eqb_eq in Heq. repeat split; assumption.
      * left. split; [reflexivity|]. split; [right; exists u; now split|].
        unfold login. fold form. rewrite Ev, He. run. fold form.
        now rewrite Eu, Ep.
    + left. split; [reflexivity|]. split; [now left|].
      unfold login. fold form. rewrite Ev, He. run. fold form. now rewrite Eu.
  - left. split; [reflexivity|]. unfold login. fold form. now rewrite Ev.
Qed.

Lemma register_accepts (w : World) (salt : string) (request : Request) :
  let form := register_form request in
  validate_on_submit form = true ->
  user_by_email (db w) (data form "email") = None ->
  register salt request w =
    (Redirect "/login",
     flashed {| db := {| users := users (db w) ++
                           [ {| User.id := next_id (map User.id (users (db w)));
                                User.email := data form "email";
                                User.password :=
                                  generate_password_hash salt (data form "password") |} ];
                         todos := todos (db w) |};
                session := session w |}
             "success" "Registration successful! Please log in.").
Proof.
  intros form Hv Hnone. unfold register, register_commit. fold form. rewrite Hv.
  run. fold form. rewrite Hnone. unfold insert_user.
  rewrite (user_by_email_none (db w) (data form "email") _ Hnone) by reflexivity.
  reflexivity.
Qed.

Lemma appended_user_found (d : Database) (row : User.t) :
  user_by_email d (User.email row) = None ->
  User.id row = next_id (map User.id (users d)) ->
  let d' := {| users := users d ++ [row]; todos := todos d |} in
  user_by_email d' (User.email row) = Some row /\
  get_user d' (User.id row) = Some row.
Proof.
  intros Hnone Hid d'. split.
  - unfold user_by_email, d'. cbn [users]. apply find_none_app; [exact Hnone|].
    apply String.eqb_refl.
  - unfold get_user, d'. cbn [users]. rewrite Hid.
    apply find_none_app; [apply get_user_fresh | now apply Z.eqb_eq].
Qed.

(** A submission that passes [RegisterForm] with an e-mail no user has
    appends one row to [users]: a key no row had, the e-mail as
    submitted, and as password what [generate_password_hash] returns for
    the submitted one.  The todos are untouched, "Registration
    successful!" is flashed, the browser is sent to the login page and
    nobody is logged in by it: the session names whom it named.  The new
    row is the one the e-mail and the key now fetch. *)
Theorem register_success (w : World) (salt : string) (request : Request) :
  let form := register_form request in
  validate_on_submit form = true ->
  user_by_email (db w) (data form "email") = None ->
  let row := {| User.id := next_id (map User.id (users (db w)));
                User.email := data form "email";
                User.password := generate_password_hash salt (data form "password") |} in
  let d' := {| users := users (db w) ++ [row]; todos := todos (db w) |} in
  register salt request w =
    (Redirect (url_for "login"),
     flashed {| db := d'; session := session w |}
             "success" "Registration successful! Please log in.") /\
  ~ In (User.id row) (map User.id (users (db w))) /\
  user_by_email d' (data form "email") = Some row /\
  get_user d' (User.id row) = Some row /\
  session_user_id (session (snd (register salt request w))) =
    session_user_id (session w).
Proof.
  intros form Hv Hnone row d'.
  pose proof (register_accepts w salt request Hv Hnone) as Hrun. fold form in Hrun.
  destruct (appended_user_found (db w) row Hnone eq_refl) as [Hfound Hget].
  split; [exact Hrun | split; [apply next_id_fresh | split; [|split]]].
  - exact Hfound.
  - exact Hget.
  - now rewrite Hrun.
Qed.

(** Who has just registered can log in: after a successful registration,
    a login submission with the same e-mail and password is accepted and
    gives the session to the new user, provided the hashing library
    verifies the password it has just hashed. *)
Theorem register_then_login
  (w : World) (salt : string) (registration submission : Request) :
  let form := register_form registration in
  validate_on_submit form = true ->
  user_by_email (db w) (data form "email") = None ->
  method submission = POST -> csrf_error submission = None ->
  data (login_form submission) "email" = data form "email" ->
  data (login_form submission) "password" = data form "password" ->
  check_password_hash (generate_password_hash salt (data form "password"))
                      (data form "password") = true ->
  let w1 := snd (register salt registration w) in
  let w2 := snd (login submission w1) in
  let row := {| User.id := next_id (map User.id (users (db w)));
                User.email := data form "email";
                User.password := generate_password_hash salt (data form "password") |} in
  (exists target, fst (login submission w1) = Redirect target) /\
  session_user_id (session w2) = Some (User.id row) /\
  get_user (db w2) (User.id row) = Some row /\
  db w2 = db w1.
Proof.
  intros form Hv Hnone Hpost Hcsrf Hemail Hpw Hround w1 w2 row.
  pose proof (register_accepts w salt registration Hv Hnone) as Hrun.
  destruct (appended_user_found (db w) row Hnone eq_refl) as [Hfound Hget].
  cbn [User.email User.id row] in Hfound, Hget. fold form in Hrun.
  destruct (RegisterForm_accepted_inv registration Hv)
    as (_ & _ & He1 & He2 & Hp1 & _). fold form in He1, He2, Hp1.
  assert (Hlv : validate_on_submit (login_form submission) = true).
  { apply LoginForm_accepts; try assumption.
    - now rewrite Hemail.
    - now rewrite Hemail.
    - now rewrite Hpw. }
  assert (Hlogin := login_accepts w1 submission row Hlv).
  unfold w1 in Hlogin at 1. rewrite Hrun in Hlogin. cbn [snd flashed db] in Hlogin.
  rewrite Hemail in Hlogin. specialize (Hlogin Hfound).
  unfold User.check_password in Hlogin. cbn [User.password row] in Hlogin.
  rewrite Hpw in Hlogin. specialize (Hlogin Hround).
  unfold w2. rewrite Hlogin. cbn [fst snd session session_user_id db].
  split; [eexists; reflexivity | split; [reflexivity | split; [|reflexivity]]].
  unfold w1. rewrite Hrun. exact Hget.
Qed.

(** Adding a todo and deleting it again gives back the store one started
    from: after an accepted submission to the list page, [delete] of the
    new row's key by the same user restores the tables exactly. *)
Theorem add_then_delete_restores
  (w : World) (addition removal : Request) (cu : User.t) :
  fst (current_user w) = Some cu ->
  validate_on_submit (todo_form addition) = true ->
  let w1 := snd (index addition w) in
  let key := next_id (map Todo.id (todos (db w))) in
  get_todo (db w1) key =
    Some {| Todo.id := key; Todo.content := data (todo_form addition) "content";
            Todo.completed := false; Todo.user_id := User.id cu |} /\
  db (snd (delete key removal w1)) = db w.
Proof.
  intros Hcu Hv w1 key.
  assert (Hw1 : w1 = {| db := insert_todo (db w)
                             (Todo.new (data (todo_form addition) "content") (User.id cu));
                        session := session w |}).
  { unfold w1, index. rewrite (login_required_as w addition cu _ Hcu). now rewrite Hv. }
  assert (Hfresh : find (fun t => Todo.id t =? key) (todos (db w)) = None).
  { destruct (find _ (todos (db w))) as [t|] eqn:E; [|reflexivity].
    apply find_some_id_todo in E as [Hin Hid]. exfalso.
    apply (next_id_fresh (map Todo.id (todos (db w)))). fold key. rewrite <- Hid.
    now apply in_map. }
  assert (Hget : get_todo (db w1) key =
    Some {| Todo.id := key; Todo.content := data (todo_form addition) "content";
            Todo.completed := false; Todo.user_id := User.id cu |}).
  { rewrite Hw1. unfold get_todo, insert_todo. cbn [db todos Todo.new Todo.content
      Todo.completed Todo.user_id]. fold key. apply find_none_app; [exact Hfresh|].
    apply Z.eqb_refl. }
  split; [exact Hget|].
  rewrite delete_cases.
  assert (Hcu1 : fst (current_user w1) = Some cu) by (rewrite Hw1; exact Hcu).
  rewrite Hcu1, (db_session_get_todo_found _ _ _ Hget).
  cbn [Todo.user_id Todo.id]. rewrite Z.eqb_refl.
  cbn [snd flashed db]. rewrite Hw1. unfold delete_todo, insert_todo.
  cbn [db users todos Todo.new Todo.content Todo.completed Todo.user_id]. fold key.
  rewrite filter_app. cbn [filter Todo.id]. rewrite Z.eqb_refl. cbn [negb].
  rewrite app_nil_r.
  assert (Hall : filter (fun t => negb (Todo.id t =? key)) (todos (db w)) = todos (db w)).
  { apply forallb_filter_id. apply forallb_forall. intros t Hin.
    apply negb_true_iff. apply Z.eqb_neq. intros E.
    apply (next_id_fresh (map Todo.id (todos (db w)))). fold key. rewrite <- E.
    now apply in_map. }
  rewrite Hall. now destruct (db w).
Qed.

End Sessions.

(** ** Who is logged in *)

Section SessionKept.
Context `{External}.

(** Only [login] and [logout] change who the session names: after a
    request to any other route ([register], [index], [toggle], [delete])
    the session names the same user, with the same remember flag. *)
Theorem only_login_and_logout_change_the_user
  (r : Route) (request : Request) (w : World) :
  r <> route_login -> r <> route_logout ->
  let s' := session (snd (dispatch r request w)) in
  session_user_id s' = session_user_id (session w) /\
  session_remember s' = session_remember (session w).
Proof.
  intros Hlogin Hlogout.
  destruct r as [salt| | | |i|i]; cbn [dispatch]; cbv zeta;
    [| now contradict Hlogin | now contradict Hlogout | | |].
  - unfold register, register_commit. run.
    destruct (validate_on_submit _); [|split; reflexivity].
    destruct (user_by_email (db w) _); [split; reflexivity|].
    destruct (insert_user (db w) _); cbn; split; reflexivity.
  - unfold index. destruct (fst (current_user w)) as [u|] eqn:E.
    + rewrite (login_required_as w request u _ E).
      destruct (validate_on_submit _); split; reflexivity.
    + rewrite (login_required_anonymous w request _ E). split; reflexivity.
  - rewrite toggle_cases. destruct (fst (current_user w)) as [u|];
      [|split; reflexivity].
    destruct (db_session_get_todo (db w) i) as [[t|]|e]; try (split; reflexivity).
    destruct (Todo.user_id t =? User.id u); split; reflexivity.
  - rewrite delete_cases. destruct (fst (current_user w)) as [u|];
      [|split; reflexivity].
    destruct (db_session_get_todo (db w) i) as [[t|]|e]; try (split; reflexivity).
    destruct (Todo.user_id t =? User.id u); split; reflexivity.
Qed.

End SessionKept.

(** * The further properties on the sample store *)

Lemma RegisterForm_accepts_exactly_witness :
  @validate_on_submit demo_external (register_form register_a) = true.
Proof.
  apply (proj2 (@RegisterForm_accepts_exactly demo_external register_a)).
  repeat split; try reflexivity; now vm_compute.
Defined.

Lemma LoginForm_accepts_exactly_witness :
  @validate_on_submit demo_external (login_form login_a) = true.
Proof.
  apply (proj2 (@LoginForm_accepts_exactly demo_external login_a)).
  repeat split; reflexivity.
Defined.

(** A content of exactly 200 characters passes. *)
Lemma TodoForm_accepts_exactly_witness :
  @validate_on_submit demo_external
    (todo_form (post "/" [("content", replicate 200 "x")])) = true.
Proof.
  apply (proj2 (@TodoForm_accepts_exactly demo_external
                  (post "/" [("content", replicate 200 "x")]))).
  repeat split; try reflexivity; now vm_compute.
Defined.

(** [b@x.com] adds a todo; the list of [a@x.com] is as it was. *)
Lemma other_users_todos_untouched_witness :
  todos_of (db (snd (@dispatch demo_external route_index add_milk (sample_world user_b)))) 1
  = [milk].
Proof.
  apply (@other_users_todos_untouched demo_external route_index add_milk
           (sample_world user_b) 1 sample_db_consistent).
  intros cu Hcu. vm_compute in Hcu. injection Hcu as <-. discriminate.
Defined.

Lemma stored_contents_within_bounds_witness :
  strip_nonempty (Todo.content milk) = true /\ len (Todo.content milk) <= 200.
Proof.
  exact (@stored_contents_within_bounds demo_external sample_db sample_db_reachable
           milk (or_introl eq_refl)).
Defined.

Lemma stored_rows_found_by_key_witness :
  get_todo sample_db 1 = Some milk /\ user_by_email sample_db "b@x.com" = Some user_b.
Proof.
  destruct (@stored_rows_found_by_key demo_external sample_db sample_db_reachable)
    as [Ht Hu].
  split; [exact (Ht milk (or_introl eq_refl))|].
  exact (proj2 (Hu user_b (or_intror (or_introl eq_refl)))).
Defined.

(** [a@x.com] deletes its todo; key 7 is nobody's; key 2^63 is beyond the
    store. *)
Lemma delete_removes_owned_todo_witness :
  delete 1 (get "/delete/1") (sample_world user_a) =
    (Redirect "/",
     {| db := {| users := [user_a; user_b]; todos := [] |};
        session := {| session_user_id := Some 1; session_remember := false;
                      flashes := [("success", "Todo deleted")] |} |}) /\
  delete 7 (get "/delete/7") (sample_world user_a) =
    (Redirect "/", flashed (sample_world user_a) "danger" "Todo not found") /\
  delete 9223372036854775808 (get "/delete/9223372036854775808") (sample_world user_a) =
    (InternalServerError OverflowError, sample_world user_a).
Proof.
  destruct (delete_removes_owned_todo (sample_world user_a) (get "/delete/1")
              user_a 1 eq_refl) as (_ & _ & Hdel).
  destruct (Hdel milk eq_refl eq_refl) as (H1 & _).
  destruct (delete_removes_owned_todo (sample_world user_a) (get "/delete/7")
              user_a 7 eq_refl) as (Hnone & _).
  destruct (delete_removes_owned_todo (sample_world user_a)
              (get "/delete/9223372036854775808") user_a 9223372036854775808 eq_refl)
    as (_ & Hbeyond & _).
  split; [exact H1 | split; [exact (Hnone eq_refl eq_refl) | exact (Hbeyond eq_refl eq_refl)]].
Defined.

Lemma toggle_twice_restores_witness :
  snd (toggle 1 (get "/toggle/1")
         (snd (toggle 1 (get "/toggle/1") (sample_world user_a))))
  = sample_world user_a.
Proof.
  exact (toggle_twice_restores (sample_world user_a) (get "/toggle/1") (get "/toggle/1")
           user_a milk 1 sample_db_consistent eq_refl eq_refl eq_refl).
Defined.

(** A session that still names user 9, whom the store does not have. *)
Lemma anonymous_requests_are_gated_witness :
  let w := {| db := sample_db;
              session := {| session_user_id := Some 9; session_remember := true;
                            flashes := [] |} |} in
  delete 1 (get "/delete/1") w =
    (LoginRedirect "/delete/1", flashed w "message" "Please log in to access this page.").
Proof.
  intros w.
  destruct (@anonymous_requests_are_gated demo_external w (get "/delete/1") 1
              (or_intror (ex_intro _ 9 (conj eq_refl eq_refl)))) as (_ & _ & Hd & _).
  exact Hd.
Defined.

Lemma get_requests_change_nothing_witness :
  fst (@register demo_external "s" (get "/register") fresh_world) =
    Render "register.html" [] [] /\
  fst (@index demo_external (get "/") (sample_world user_a)) =
    Render "index.html" [] [milk] /\
  db (snd (@index demo_external (get "/") (sample_world user_a))) = sample_db.
Proof.
  destruct (@get_requests_change_nothing demo_external fresh_world "s"
              (get "/register") eq_refl) as ((Hr & _) & _).
  destruct (@get_requests_change_nothing demo_external (sample_world user_a) "s"
              (get "/") eq_refl) as (_ & _ & Hi).
  destruct (Hi user_a eq_refl) as (Hpage & Hdb & _).
  split; [exact Hr | split; [exact Hpage | exact Hdb]].
Defined.

(** A well-formed addition by [a@x.com], and a well-formed registration by
    a visitor, whose token has expired. *)
Lemma csrf_failure_changes_nothing_witness :
  let addition := {| method := POST; path := "/"; args := [];
                     form := [("content", "buy milk")];
                     csrf_error := Some "The CSRF token has expired." |} in
  let registration := {| method := POST; path := "/register"; args := [];
                         form := [("email", "c@x.com"); ("password", "letmein");
                                  ("password2", "letmein")];
                         csrf_error := Some "The CSRF token has expired." |} in
  fst (@index demo_external addition (sample_world user_a)) =
    Render "index.html" [("csrf_token", ["The CSRF token has expired."])] [milk] /\
  db (snd (@index demo_external addition (sample_world user_a))) = sample_db /\
  db (snd (@register demo_external "s3" registration fresh_world)) = empty_db.
Proof.
  intros addition registration.
  destruct (@csrf_failure_changes_nothing demo_external (sample_world user_a) "s"
              addition "The CSRF token has expired." eq_refl eq_refl)
    as (_ & _ & Hi).
  destruct (Hi user_a eq_refl) as (Hpage & _ & Hdb & _).
  destruct (@csrf_failure_changes_nothing demo_external fresh_world "s3"
              registration "The CSRF token has expired." eq_refl eq_refl)
    as ((_ & _ & Hreg & _) & _).
  split; [exact Hpage | split; [exact Hdb | exact Hreg]].
Defined.

(** [a@x.com] logs in from the page the gate sent it from, asking to be
    remembered. *)
Lemma login_success_witness :
  let request := {| method := POST; path := "/login"; args := [("next", "/toggle/1")];
                    form := [("email", "a@x.com"); ("password", "secret1");
                             ("remember", "y")];
                    csrf_error := None |} in
  @login demo_external request {| db := sample_db; session := anonymous |} =
    (Redirect "/toggle/1",
     {| db := sample_db;
        session := {| session_user_id := Some 1; session_remember := true;
                      flashes := [] |} |}).
Proof.
  intros request.
  destruct (@login_success demo_external {| db := sample_db; session := anonymous |}
              request user_a sample_db_consistent eq_refl eq_refl eq_refl) as (Hl & _).
  exact Hl.
Defined.

Lemma register_success_witness :
  let request :=
    post "/register"
      [("email", "c@x.com"); ("password", "letmein"); ("password2", "letmein")] in
  users (db (snd (@register demo_external "s3" request
                    {| db := sample_db; session := anonymous |}))) =
  [user_a; user_b;
   {| User.id := 3; User.email := "c@x.com"; User.password := "demo$s3$letmein" |}].
Proof.
  intros request.
  destruct (@register_success demo_external {| db := sample_db; session := anonymous |}
              "s3" request eq_refl eq_refl) as (Hr & _).
  now rewrite Hr.
Defined.

Lemma register_then_login_witness :
  let registration :=
    post "/register"
      [("email", "c@x.com"); ("password", "letmein"); ("password2", "letmein")] in
  let submission := post "/login" [("email", "c@x.com"); ("password", "letmein")] in
  session_user_id (session (snd (@login demo_external submission
    (snd (@register demo_external "s3" registration
            {| db := sample_db; session := anonymous |}))))) = Some 3.
Proof.
  intros registration submission.
  destruct (@register_then_login demo_external {| db := sample_db; session := anonymous |}
              "s3" registration submission eq_refl eq_refl eq_refl eq_refl eq_refl
              eq_refl eq_refl) as (_ & Hs & _).
  exact Hs.
Defined.

Lemma add_then_delete_restores_witness :
  db (snd (delete 2 (get "/delete/2")
             (snd (@index demo_external add_milk (sample_world user_a))))) = sample_db.
Proof.
  destruct (@add_then_delete_restores demo_external (sample_world user_a) add_milk
              (get "/delete/2") user_a eq_refl eq_refl) as (_ & Hd).
  exact Hd.
Defined.

(** [a@x.com], logged in, submits a registration: it stays logged in. *)
Lemma only_login_and_logout_change_the_user_witness :
  session_user_id (session (snd (@dispatch demo_external (route_register "s3")
                                   register_b (sample_world user_a)))) = Some 1.
Proof.
  assert (H1 : route_register "s3" <> route_login) by discriminate.
  assert (H2 : route_register "s3" <> route_logout) by discriminate.
  exact (proj1 (@only_login_and_logout_change_the_user demo_external
                  (route_register "s3") register_b (sample_world user_a) H1 H2)).
Defined.
